(** * FDD Co-Pilot (raushan_app.py): retrieval, prompt and response pipeline

    A shallow embedding of the Streamlit script [raushan_app.py]: the Python
    string operations it relies on, the document-processing loop, and the
    Submit handler with its calls to the vector store and to the chat model.
    External libraries (PyPDF2, LangChain, FAISS, Groq, pyperclip and the
    Streamlit widgets) are parameters of the model; every call the script
    makes to a service or to the page is recorded in a trace. *)

From Stdlib Require Import List Bool Arith NArith ZArith QArith Lia.
From Stdlib Require Import Ascii.
From Stdlib Require String DecimalString DecimalNat.
Import String.StringSyntax.
Import ListNotations.
Close Scope Q_scope.
Delimit Scope string_scope with string.

(* ================================================================== *)
(** ** Python strings *)

(** A Python [str] is a sequence of Unicode code points. *)
Module PyStr.

Definition char := N.
Definition str := list char.

(** Source literals are ASCII; [lit] gives their code points. *)
Definition lit (s : String.string) : str :=
  map N_of_ascii (String.list_ascii_of_string s).
Arguments lit s%_string.

Definition NL : char := 10%N.
Definition SP : char := 32%N.

(** Truthiness of a [str]: non-empty. *)
Definition truthy (s : str) : bool :=
  match s with [] => false | _ :: _ => true end.

(** [str.isspace] on one code point (CPython's [_PyUnicode_IsWhitespace]). *)
Definition is_space (c : char) : bool :=
  ((9 <=? c) && (c <=? 13) || (28 <=? c) && (c <=? 32)
   || (c =? 133) || (c =? 160) || (c =? 5760)
   || (8192 <=? c) && (c <=? 8202)
   || (c =? 8232) || (c =? 8233) || (c =? 8239) || (c =? 8287)
   || (c =? 12288))%N.

Fixpoint lstrip (s : str) : str :=
  match s with
  | c :: s' => if is_space c then lstrip s' else s
  | [] => []
  end.

Definition rstrip (s : str) : str := rev (lstrip (rev s)).

(** [s.strip()] *)
Definition strip (s : str) : str := rstrip (lstrip s).

Fixpoint starts_with (p s : str) : bool :=
  match p, s with
  | [], _ => true
  | _ :: _, [] => false
  | a :: p', b :: s' => (a =? b)%N && starts_with p' s'
  end.

(** [s.find(sub)]: lowest index at which [sub] occurs, if any. *)
Fixpoint find (sub s : str) {struct s} : option nat :=
  if starts_with sub s then Some 0
  else match s with
       | [] => None
       | _ :: s' => option_map S (find sub s')
       end.

(** [sub in s] *)
Definition contains (sub s : str) : bool :=
  match find sub s with Some _ => true | None => false end.

(** [s.split(sep)] for a non-empty [sep]: cut at each occurrence found
    scanning left to right, resuming after the separator.  Every cut
    consumes at least one character, so [S (length s)] rounds suffice
    (lemma [split_rounds_enough]). *)
Fixpoint split_rounds (n : nat) (sep s : str) : list str :=
  match n with
  | O => [s]
  | S n' =>
      match find sep s with
      | None => [s]
      | Some i => firstn i s :: split_rounds n' sep (skipn (i + length sep) s)
      end
  end.

Definition split (sep s : str) : list str := split_rounds (S (length s)) sep s.

(** [sep.join(parts)] *)
Fixpoint join (sep : str) (parts : list str) : str :=
  match parts with
  | [] => []
  | [p] => p
  | p :: rest => p ++ sep ++ join sep rest
  end.

(** [s[:n]] for a Python integer [n]; a negative [n] counts from the end. *)
Definition slice_to (s : str) (n : Z) : str :=
  if (0 <=? n)%Z then firstn (Z.to_nat n) s
  else firstn (length s - Z.to_nat (- n)) s.

(** [str(i)] for a non-negative integer. *)
Definition of_nat (i : nat) : str :=
  lit (DecimalString.NilEmpty.string_of_uint (Nat.to_uint i)).

End PyStr.
Import PyStr.

(* ================================================================== *)
(** ** Exceptions, results and the trace of a run *)

(** An exception caught by [except Exception as e], observed through
    [str(e)]. *)
Record exn := Exception { exn_str : str }.

Inductive result (A : Type) : Type :=
| Ok (a : A)
| Raise (e : exn).
Arguments Ok {A} a.
Arguments Raise {A} e.

(** One chat message, [{"role": ..., "content": ...}]. *)
Record message := Message { role : str; content : str }.

(** A retrieved chunk (LangChain [Document]), read through
    [page_content]. *)
Record Document := Doc { page_content : str }.

(** One conversation entry, [{"question": ..., "response": ...}]. *)
Record entry := Entry { question : str; response : str }.

(** What a run does to the outside, in order: what it puts on the page
    and the calls that leave the process, to the embedding service
    ([FAISS.from_texts], and [similarity_search], which embeds the query
    before it searches the index), to the chat model and to the clipboard.
    Reading a PDF, splitting text and merging stores work locally and
    leave no event. *)
Inductive event : Type :=
| st_subheader (body : str)
| st_success (body : str)
| st_error (body : str)
| st_warning (body : str)
| st_markdown (body : str)
| st_button_shown (label key : str)
| FAISS_from_texts_call (chunks : list str)
| similarity_search_call (query : str) (k : nat)
| ChatGroq_call (model_name api_key : str)
| invoke_call (messages : list message)
| pyperclip_copy_call (text : str).

(** The sidebar settings (lines 25-29).  The temperature is a float
    between 0.0 and 1.0; the script never computes with it, and it is kept
    here as a rational.  The maximal context length is a Python integer,
    which the widget keeps between 1000 and 8000. *)
Inductive retrieve_mode_t := Text_Hybrid | Vector_Only | Text_Only.

Record settings := Settings {
  selected_model : str;
  temperature : Q;
  max_context_length : Z;
  retrieve_mode : retrieve_mode_t
}.

Record secrets := Secrets {
  groq_api_key : str;
  deepseek_api_key : str;
  openai_api_key : str
}.

(** The external libraries and services, as the script calls them.  Each
    call either returns or raises an [Exception]. *)
Class Externals : Type := {
  UploadedFile : Type;
  name : UploadedFile -> str;
  Page : Type;
  Embeddings : Type;
  VectorStore : Type;
  ChatModel : Type;
  (** [PdfReader(uploaded_file).pages] *)
  PdfReader : UploadedFile -> result (list Page);
  (** [page.extract_text()], which may give [None] *)
  extract_text : Page -> result (option str);
  (** [RecursiveCharacterTextSplitter(chunk_size, chunk_overlap).split_text] *)
  split_text : nat -> nat -> str -> list str;
  (** [OpenAIEmbeddings(api_key=...)] *)
  OpenAIEmbeddings : str -> result Embeddings;
  (** [FAISS.from_texts(chunks, embeddings)]: embeds the chunks *)
  FAISS_from_texts : list str -> Embeddings -> result VectorStore;
  (** [self.merge_from(other)]: the store after the call, and the
      exception if the call raised *)
  merge_from : VectorStore -> VectorStore -> VectorStore * option exn;
  (** [vector_store.similarity_search(query, k=k)] *)
  similarity_search : VectorStore -> str -> nat -> result (list Document);
  (** [ChatGroq(model_name=..., api_key=...)] *)
  ChatGroq : str -> str -> result ChatModel;
  (** [llm.invoke(messages).content] *)
  invoke : ChatModel -> list message -> result str;
  (** [st.button(label, key=key)] for the Copy buttons *)
  st_button : str -> str -> bool;
  (** [pyperclip.copy(text)] *)
  pyperclip_copy : str -> result unit
}.

(* ================================================================== *)
(** ** The script *)

Section Script.

Context {X : Externals}.

Record state := State {
  conversation_history : list entry;
  vector_store : option VectorStore;
  trace : list event
}.

(** Computations of the script: they read and update the state and
    either return or raise; what was done before a raise stays done. *)
Definition M (A : Type) : Type := state -> result A * state.

Definition ret {A} (a : A) : M A := fun s => (Ok a, s).

Definition bind {A B} (m : M A) (k : A -> M B) : M B :=
  fun s => match m s with
           | (Ok a, s') => k a s'
           | (Raise e, s') => (Raise e, s')
           end.

Definition lift {A} (r : result A) : M A := fun s => (r, s).

(** [try: body  except Exception as e: handler e] *)
Definition try_except (body : M unit) (handler : exn -> M unit) : M unit :=
  fun s => match body s with
           | (Ok a, s') => (Ok a, s')
           | (Raise e, s') => handler e s'
           end.

(** The state once the run has done [evs] more. *)
Definition log (s : state) (evs : list event) : state :=
  State (conversation_history s) (vector_store s) (trace s ++ evs).

Definition emit (e : event) : M unit := fun s => (Ok tt, log s [e]).

Definition get_vector_store : M (option VectorStore) :=
  fun s => (Ok (vector_store s), s).

Definition set_vector_store (v : option VectorStore) : M unit :=
  fun s => (Ok tt, State (conversation_history s) v (trace s)).

(** [st.session_state.conversation_history.append(e)] *)
Definition append_history (e : entry) : M unit :=
  fun s => (Ok tt, State (conversation_history s ++ [e]) (vector_store s)
                         (trace s)).

(** The state a computation ends in, and how it ends. *)
Definition exec {A} (m : M A) (s : state) : state := snd (m s).
Definition outcome {A} (m : M A) (s : state) : result A := fst (m s).

Declare Scope script_scope.
Delimit Scope script_scope with script.
Notation "x <- m ;; k" := (bind m (fun x => k))
  (at level 61, m at next level, right associativity) : script_scope.
Notation "m ;; k" := (bind m (fun _ => k))
  (at level 61, right associativity) : script_scope.
Local Open Scope script_scope.

(** [for x in l: body x] *)
Fixpoint for_each {A} (l : list A) (body : A -> M unit) : M unit :=
  match l with
  | [] => ret tt
  | x :: l' => body x ;; for_each l' body
  end.

(** [enumerate(l)] *)
Definition enumerate {A} (l : list A) : list (nat * A) :=
  combine (seq 0 (length l)) l.

(** *** Document processing (lines 43-66) *)

(** [x or ""] for the text of a page *)
Definition or_empty (t : option str) : str :=
  match t with
  | Some s => if truthy s then s else []
  | None => []
  end.

(** [[page.extract_text() or "" for page in pages]]; the first page that
    raises ends it. *)
Fixpoint page_texts (pages : list Page) : result (list str) :=
  match pages with
  | [] => Ok []
  | page :: rest =>
      match extract_text page with
      | Raise e => Raise e
      | Ok t =>
          match page_texts rest with
          | Raise e => Raise e
          | Ok ts => Ok (or_empty t :: ts)
          end
      end
  end.

(** Lines 49-57: from the uploaded file to its chunks and the embeddings
    client, before anything touches the vector store. *)
Definition read_chunks (api_key : str) (uploaded_file : UploadedFile)
  : result (list str * Embeddings) :=
  match PdfReader uploaded_file with
  | Raise e => Raise e
  | Ok pages =>
      match page_texts pages with
      | Raise e => Raise e
      | Ok texts =>
          let text := join [] texts in
          let chunks := split_text 2000 200 text in
          match OpenAIEmbeddings api_key with
          | Raise e => Raise e
          | Ok embeddings => Ok (chunks, embeddings)
          end
      end
  end.

(** Whether extraction or embedding raises for a file: the exception, and
    the service call made before it. *)
Definition failure_of (sec : secrets) (uploaded_file : UploadedFile)
  : option (list event * exn) :=
  match read_chunks (openai_api_key sec) uploaded_file with
  | Raise e => Some ([], e)
  | Ok (chunks, embeddings) =>
      match FAISS_from_texts chunks embeddings with
      | Raise e => Some ([FAISS_from_texts_call chunks], e)
      | Ok _ => None
      end
  end.

(** [vector_store.merge_from(temp_vector_store)]: the store is updated in
    place, whether or not the call raises. *)
Definition do_merge (v temp : VectorStore) : M unit :=
  let '(v', err) := merge_from v temp in
  set_vector_store (Some v') ;;
  match err with
  | Some e => lift (Raise e)
  | None => ret tt
  end.

(** Lines 58-62. *)
Definition add_to_store (chunks : list str) (embeddings : Embeddings)
  : M unit :=
  vs <- get_vector_store ;;
  match vs with
  | None =>
      emit (FAISS_from_texts_call chunks) ;;
      v <- lift (FAISS_from_texts chunks embeddings) ;;
      set_vector_store (Some v)
  | Some v =>
      emit (FAISS_from_texts_call chunks) ;;
      temp_vector_store <- lift (FAISS_from_texts chunks embeddings) ;;
      do_merge v temp_vector_store
  end.

(** The body of the loop, lines 48-66. *)
Definition process_file (sec : secrets) (uploaded_file : UploadedFile)
  : M unit :=
  try_except
    (ce <- lift (read_chunks (openai_api_key sec) uploaded_file) ;;
     add_to_store (fst ce) (snd ce) ;;
     emit (st_success (lit "Processed: " ++ name uploaded_file)))
    (fun e =>
       emit (st_error (lit "Error processing " ++ name uploaded_file
                         ++ lit ": " ++ exn_str e))).

(** Lines 44-66. *)
Definition process_documents (sec : secrets)
    (uploaded_files : list UploadedFile) : M unit :=
  set_vector_store None ;;
  match uploaded_files with
  | [] => ret tt
  | _ :: _ =>
      emit (st_subheader (lit "Processing Documents...")) ;;
      for_each uploaded_files (process_file sec)
  end.

(** *** The Submit handler (lines 119-169) *)

(** Line 120: [custom_question if custom_question else question]. *)
Definition resolve_question (custom_question question : str) : str :=
  if truthy custom_question then custom_question else question.

(** Line 125. *)
Definition join_chunks (relevant_chunks : list Document) : str :=
  join [SP] (map page_content relevant_chunks).

(** Line 128. *)
Definition limit_context (context : str) (max_context_length : Z) : str :=
  if (Z.of_nat (length context) >? max_context_length)%Z
  then slice_to context max_context_length
  else context.

Definition instruction : str :=
  lit "Answer like you are a airport domain expert when ask about fouth control period only give information about fourth control period nothing else and if asked about thirc ontrol period only goive information about third control period .when i ma asking about traffic need information from international and domestic and all its sub bifurcation.".

(** Lines 131-135. *)
Definition build_prompt (context question : str) : str :=
  lit "Context:" ++ [NL] ++ context ++ [NL; NL]
    ++ lit "Question: " ++ question ++ [NL; NL]
    ++ instruction.

Definition marker : str := lit "Follow-up questions:".

(** [l[i]] for [i >= 0]; out of range raises [IndexError]. *)
Definition index {A} (l : list A) (i : nat) : result A :=
  match nth_error l i with
  | Some a => Ok a
  | None => Raise (Exception (lit "list index out of range"))
  end.

(** Lines 143-149: the main response and [follow_up_questions]. *)
Definition extract_follow_ups (response_text : str)
  : result (str * list str) :=
  if contains marker response_text then
    let split_response := split marker response_text in
    match index split_response 0 with
    | Raise e => Raise e
    | Ok main_response =>
        match index split_response 1 with
        | Raise e => Raise e
        | Ok second => Ok (main_response, split [NL] (strip second))
        end
    end
  else Ok (response_text, []).

(** Lines 158-162: one round of the loop over [enumerate(follow_up_questions)]. *)
Definition show_follow_up (item : nat * str) : M unit :=
  let '(idx, follow_up) := item in
  if truthy (strip follow_up) then
    emit (st_markdown (lit "- " ++ strip follow_up)) ;;
    emit (st_button_shown (lit "Copy") (lit "copy_follow_up_" ++ of_nat idx)) ;;
    if st_button (lit "Copy") (lit "copy_follow_up_" ++ of_nat idx) then
      emit (pyperclip_copy_call (strip follow_up)) ;;
      lift (pyperclip_copy (strip follow_up)) ;;
      emit (st_success (lit "Copied to clipboard!"))
    else ret tt
  else ret tt.

(** Lines 155-162. *)
Definition show_follow_ups (follow_up_questions : list str) : M unit :=
  match follow_up_questions with
  | [] => ret tt
  | _ :: _ =>
      emit (st_markdown (lit "**Follow-up Questions:**")) ;;
      for_each (enumerate follow_up_questions) show_follow_up
  end.

(** Lines 138-165, the body of the [try]. *)
Definition generate_response (cfg : settings) (sec : secrets)
    (prompt question : str) : M unit :=
  emit (ChatGroq_call (selected_model cfg) (groq_api_key sec)) ;;
  llm <- lift (ChatGroq (selected_model cfg) (groq_api_key sec)) ;;
  emit (invoke_call [Message (lit "user") prompt]) ;;
  response_text <- lift (invoke llm [Message (lit "user") prompt]) ;;
  parsed <- lift (extract_follow_ups response_text) ;;
  let main_response := fst parsed in
  let follow_up_questions := snd parsed in
  emit (st_markdown (lit "**Response:**" ++ [NL; NL] ++ main_response)) ;;
  show_follow_ups follow_up_questions ;;
  append_history (Entry question main_response).

(** Lines 123-167, with the vector store at hand and a question. *)
Definition answer_question (cfg : settings) (sec : secrets)
    (store : VectorStore) (question : str) : M unit :=
  emit (similarity_search_call question 3) ;;
  relevant_chunks <- lift (similarity_search store question 3) ;;
  let context := join_chunks relevant_chunks in
  let context := limit_context context (max_context_length cfg) in
  let prompt := build_prompt context question in
  try_except
    (generate_response cfg sec prompt question)
    (fun e =>
       emit (st_error (lit "Error generating response: " ++ exn_str e))).

(** Lines 120-169: what pressing Submit does, [question] being the value
    of the radio (or [""]) and [custom_question] the text input. *)
Definition submit_handler (cfg : settings) (sec : secrets)
    (question custom_question : str) : M unit :=
  let question := resolve_question custom_question question in
  vs <- get_vector_store ;;
  match vs, truthy question with
  | Some store, true => answer_question cfg sec store question
  | _, _ =>
      emit (st_warning (lit "Please upload and process a document first."))
  end.

(** The widgets of one run of the script. *)
Record widgets := Widgets {
  uploaded_files : list UploadedFile;
  predefined_questions : list str;
  radio : str;
  custom_question : str;
  submit : bool
}.

(** Lines 111-114. *)
Definition selected_question (w : widgets) : str :=
  match predefined_questions w with
  | [] => []
  | _ :: _ => radio w
  end.

(** One run of the script, from the upload to the Submit handler.  The
    category tiles (lines 68-108) only replace the list of predefined
    questions, taken here as it is when the radio is drawn; the history
    expander (lines 171-176) only displays. *)
Definition script (cfg : settings) (sec : secrets) (w : widgets) : M unit :=
  process_documents sec (uploaded_files w) ;;
  if submit w
  then submit_handler cfg sec (selected_question w) (custom_question w)
  else ret tt.

End Script.

(* ================================================================== *)
(** ** The rest of the script: keys, tiles, history *)

(** Lines 72-108: the questions behind each tile. *)
Definition revenue_questions : list str :=
  [lit "Is there a declining trend in revenue?";
   lit "Is there an overall increase in revenue?";
   lit "What are the different sources of income?"].

Definition expenses_questions : list str :=
  [lit "Is there an increasing trend in expenses?";
   lit "What are the major contributors to total expenses?";
   lit "How do expenses compare to revenue over time?"].

Definition profit_metrics_questions : list str :=
  [lit "What is the net profit margin over time?";
   lit "How does the company's profitability compare to competitors?";
   lit "Are there any significant fluctuations in profit margins?";
   lit "What factors contribute to profit growth or decline?"].

Definition assets_questions : list str :=
  [lit "What are the company's most valuable assets?";
   lit "How have the assets grown or depreciated over time?";
   lit "What proportion of assets are liquid?";
   lit "Are there any high-risk or underperforming assets?"].

(** The last question has a typographic apostrophe (U+2019). *)
Definition gaps_questions : list str :=
  [lit "What are the key limitations of this company?";
   lit "Are there any significant financial risks?";
   lit "Where does the company lag behind competitors?";
   lit "Are there gaps in the company" ++ [8217%N]
     ++ lit "s product or service offerings?"].

(** Which of the five tile buttons return [True] in this run. *)
Record tiles := Tiles {
  revenue : bool;
  expenses : bool;
  profit_metrics : bool;
  assets : bool;
  gaps : bool
}.

(** Lines 70-108: five [if st.button(...)] in a row, each assigning
    [st.session_state.predefined_questions]. *)
Definition press_tiles (t : tiles) (predefined : list str) : list str :=
  let predefined := if revenue t then revenue_questions else predefined in
  let predefined := if expenses t then expenses_questions else predefined in
  let predefined :=
    if profit_metrics t then profit_metrics_questions else predefined in
  let predefined := if assets t then assets_questions else predefined in
  if gaps t then gaps_questions else predefined.

(** Line 16: [not groq_api_key or not deepseek_api_key or not
    openai_api_key]. *)
Definition keys_missing (sec : secrets) : bool :=
  negb (truthy (groq_api_key sec))
  || negb (truthy (deepseek_api_key sec))
  || negb (truthy (openai_api_key sec)).

(** Lines 175-176 for one entry of [enumerate(conversation_history)]. *)
Definition history_lines (item : nat * entry) : list str :=
  let '(idx, e) := item in
  [lit "**Q" ++ of_nat (idx + 1) ++ lit ":** " ++ question e;
   lit "**A:** " ++ response e].

(** Lines 172-176: nothing for an empty history; otherwise the label of
    the expander and the markdown lines inside it. *)
Definition history_view (conversation_history : list entry)
  : option (str * list str) :=
  match conversation_history with
  | [] => None
  | _ :: _ =>
      Some (lit "Conversation History",
            flat_map history_lines (enumerate conversation_history))
  end.

(** [st.session_state], whose two keys may not exist yet. *)
Record session := Session {
  session_history : option (list entry);
  session_predefined : option (list str)
}.

(** Lines 38-41. *)
Definition init_session (ss : session) : session :=
  Session
    (Some (match session_history ss with Some h => h | None => [] end))
    (Some (match session_predefined ss with Some p => p | None => [] end)).

(** How a run of the script ends: at its last line, at [st.stop()], or on
    an exception nothing catches. *)
Inductive ending := Completed | Stopped | Uncaught (e : exn).

Section App.

Context {X : Externals}.

(** The widgets of a run, tiles included. *)
Record app_widgets := AppWidgets {
  app_files : list UploadedFile;
  app_tiles : tiles;
  app_radio : str;
  app_custom_question : str;
  app_submit : bool
}.

(** What a run leaves: how it ended, the session state, what it did, and
    the history expander if it was drawn. *)
Record run := Run {
  run_ending : ending;
  run_session : session;
  run_trace : list event;
  run_history_view : option (str * list str)
}.

Definition history_of (ss : session) : list entry :=
  match session_history ss with Some h => h | None => [] end.

Definition predefined_of (ss : session) : list str :=
  match session_predefined ss with Some p => p | None => [] end.

(** One run of the whole script, line 10 to line 176.  The page
    furniture (page configuration, headers, the drawing of the sidebar and
    of the input widgets) leaves no event. *)
Definition app_run (cfg : settings) (sec : secrets) (w : app_widgets)
    (ss : session) : run :=
  if keys_missing sec then
    Run Stopped ss
      [st_error
         (lit "API keys are missing. Please check your Streamlit Secrets.")]
      None
  else
    let ss := init_session ss in
    match process_documents sec (app_files w)
            (State (history_of ss) None []) with
    | (Raise e, s1) => Run (Uncaught e) ss (trace s1) None
    | (Ok _, s1) =>
        let predefined := press_tiles (app_tiles w) (predefined_of ss) in
        let question :=
          match predefined with
          | [] => []
          | _ :: _ => app_radio w
          end in
        let '(r, s2) :=
          if app_submit w
          then submit_handler cfg sec question (app_custom_question w) s1
          else (Ok tt, s1) in
        let ss' :=
          Session (Some (conversation_history s2)) (Some predefined) in
        match r with
        | Raise e => Run (Uncaught e) ss' (trace s2) None
        | Ok _ =>
            Run Completed ss' (trace s2)
              (history_view (conversation_history s2))
        end
    end.

End App.

(* ================================================================== *)
(** ** The follow-ups on the page, and the spec's reading of them *)

(** What lines 157-161 put on the page (and offer to copy) for
    [follow_up_questions]: [follow_up.strip()] for every entry whose
    strip is not empty. *)
Definition shown_follow_ups (follow_up_questions : list str) : list str :=
  filter truthy (map strip follow_up_questions).

(** The follow-up list in the words of the spec: the text after the
    marker split on newlines, each candidate trimmed, blank ones dropped. *)
Definition spec_follow_ups (after_marker : str) : list str :=
  filter truthy (map strip (split [NL] after_marker)).

(** The text of an [st.markdown] call, if the event is one. *)
Definition markdown_body (e : event) : option str :=
  match e with
  | st_markdown body => Some body
  | _ => None
  end.

(** The bodies of the [st.markdown] calls of a trace, in order. *)
Fixpoint markdown_bodies (tr : list event) : list str :=
  match tr with
  | [] => []
  | e :: tr' =>
      match markdown_body e with
      | Some body => body :: markdown_bodies tr'
      | None => markdown_bodies tr'
      end
  end.

(** The text up to the next occurrence of the marker, or all of it. *)
Definition up_to_marker (s : str) : str :=
  match find marker s with
  | Some j => firstn j s
  | None => s
  end.

(** *** Sample answers *)

(** ["Answer text\nFollow-up questions:\nQ1\nQ2"] *)
Definition sample_answer : str :=
  lit "Answer text" ++ [NL] ++ marker ++ [NL] ++ lit "Q1" ++ [NL] ++ lit "Q2".

(** ["A Follow-up questions: Q1 \n\n Q2"] *)
Definition answer_with_loose_lines : str :=
  lit "A " ++ marker ++ lit " Q1 " ++ [NL; NL] ++ lit " Q2".

(** ["Answer only. Follow-up questions:"] *)
Definition answer_with_bare_marker : str := lit "Answer only. " ++ marker.

(** ["A\nFollow-up questions:\nQ1\nFollow-up questions:\nQ2"] *)
Definition answer_with_two_markers : str :=
  lit "A" ++ [NL] ++ marker ++ [NL] ++ lit "Q1" ++ [NL] ++ marker
    ++ [NL] ++ lit "Q2".

(** The context in the words of the spec: the chunk texts in the order
    given, a single space before each one after the first. *)
Definition spec_context (texts : list str) : str :=
  match texts with
  | [] => []
  | t :: rest => t ++ flat_map (fun u => SP :: u) rest
  end.

(** Events that only touch the page or the clipboard. *)
Definition page_event (e : event) : bool :=
  match e with
  | st_subheader _ | st_success _ | st_error _ | st_warning _
  | st_markdown _ | st_button_shown _ _ | pyperclip_copy_call _ => true
  | FAISS_from_texts_call _ | similarity_search_call _ _
  | ChatGroq_call _ _ | invoke_call _ => false
  end.

(** The error of line 66 for a file. *)
Definition processing_error {X : Externals} (uploaded_file : UploadedFile)
    (e : exn) : event :=
  st_error (lit "Error processing " ++ name uploaded_file
              ++ lit ": " ++ exn_str e).

(** The warning of line 169. *)
Definition no_document_warning : event :=
  st_warning (lit "Please upload and process a document first.").

(* ================================================================== *)
(** ** A small world to run the script in *)

Module Toy.

(** A file: its name and what reading it gives, page by page. *)
Record file := File {
  file_name : str;
  file_pages : result (list (result (option str)))
}.

(** The chat model answers [reply]; the Copy buttons are pressed or not
    according to [copy_pressed].  The vector store is the list of its
    chunks, the splitter makes one chunk of a non-empty text, building a
    store from no chunk raises, and a search returns the first [k] chunks. *)
Definition world (reply : result str) (copy_pressed : bool) : Externals := {|
  UploadedFile := file;
  name := file_name;
  Page := result (option str);
  Embeddings := str;
  VectorStore := list str;
  ChatModel := str;
  PdfReader := file_pages;
  extract_text := fun page => page;
  split_text := fun _ _ text => match text with [] => [] | _ :: _ => [text] end;
  OpenAIEmbeddings := fun key => Ok key;
  FAISS_from_texts := fun chunks _ =>
    match chunks with
    | [] => Raise (Exception (lit "list index out of range"))
    | _ :: _ => Ok chunks
    end;
  merge_from := fun v temp => (v ++ temp, None);
  similarity_search := fun v _ k => Ok (map Doc (firstn k v));
  ChatGroq := fun model_name _ => Ok model_name;
  invoke := fun _ _ => reply;
  st_button := fun _ _ => copy_pressed;
  pyperclip_copy := fun _ => Ok tt
|}.

Definition cfg : settings :=
  Settings (lit "llama-3.3-70b-versatile") (3 # 10) 3000 Text_Hybrid.

Definition sec : secrets := Secrets (lit "gsk") (lit "dsk") (lit "osk").

Definition report : file :=
  File (lit "report.pdf") (Ok [Ok (Some (lit "Revenue grew.")); Ok None]).

Definition broken : file :=
  File (lit "broken.pdf") (Raise (Exception (lit "EOF marker not found"))).

Definition annex : file :=
  File (lit "annex.pdf") (Ok [Ok (Some (lit "Costs fell."))]).

Definition blank : file := File (lit "blank.pdf") (Ok [Ok None]).

(** A file whose second page cannot be read. *)
Definition torn : file :=
  File (lit "torn.pdf")
    (Ok [Ok (Some (lit "Page one."));
         Raise (Exception (lit "bad xref"))]).

Definition eof_error : exn := Exception (lit "EOF marker not found").

Definition rate_limit : exn := Exception (lit "429 rate limit").

(** The chat model answers the sample answer. *)
Definition answering : Externals := world (Ok sample_answer) false.

(** The chat model is out of quota. *)
Definition failing : Externals := world (Raise rate_limit) false.

(** A session with one chunk indexed and nothing asked yet. *)
Definition indexed (W : Externals) (store : @VectorStore W) : @state W :=
  State [] (Some store) [].

(** A session with nothing indexed. *)
Definition fresh (W : Externals) : @state W := State [] None [].

Definition predefined : str := lit "Is there a declining trend in revenue?".

Definition custom : str := lit "What is EBITDA?".

End Toy.

(** What answering the question [q] may do once the search is made: touch
    the page, build the chat client, and send a prompt made for [q]. *)
Definition answering_event (cfg : settings) (sec : secrets) (q : str)
    (e : event) : Prop :=
  page_event e = true \/
  e = ChatGroq_call (selected_model cfg) (groq_api_key sec) \/
  exists context, e = invoke_call [Message (lit "user") (build_prompt context q)].

(* ================================================================== *)
(** ** Observations on traces and on the document loop *)

(** The keys of the buttons a trace draws, in order. *)
Fixpoint button_keys (tr : list event) : list str :=
  match tr with
  | [] => []
  | st_button_shown _ key :: tr' => key :: button_keys tr'
  | _ :: tr' => button_keys tr'
  end.

(** The per-file reports of lines 64 and 66. *)
Definition is_report (e : event) : bool :=
  match e with
  | st_success _ | st_error _ => true
  | _ => false
  end.

(** The calls to the chat model of a trace. *)
Definition is_chat_call (e : event) : bool :=
  match e with
  | ChatGroq_call _ _ | invoke_call _ => true
  | _ => false
  end.

Section LoopObservations.

Context {X : Externals}.

(** A file that is read, split and embedded without an exception. *)
Definition ingestible (sec : secrets) (f : UploadedFile) : bool :=
  match failure_of sec f with
  | None => true
  | Some _ => false
  end.

(** What one round of the loop (lines 48-66) does to [vector_store]. *)
Definition index_after (sec : secrets) (v : option VectorStore)
    (f : UploadedFile) : option VectorStore :=
  match read_chunks (openai_api_key sec) f with
  | Raise _ => v
  | Ok (chunks, embeddings) =>
      match FAISS_from_texts chunks embeddings with
      | Raise _ => v
      | Ok temp =>
          match v with
          | None => Some temp
          | Some v0 => Some (fst (merge_from v0 temp))
          end
      end
  end.

End LoopObservations.

Section Reports.

Context {X : Externals}.

(** The report that one round of the loop (lines 48-66) ends with, for
    the file [f] and the index [v] the round starts from: the error of
    line 66 with the exception that ended the [try], raised by the
    reading, by the embedding or, with an index already there, by the
    merge; the success of line 64 when nothing raised. *)
Definition report_of (sec : secrets) (v : option VectorStore)
    (f : UploadedFile) : event :=
  match read_chunks (openai_api_key sec) f with
  | Raise e => processing_error f e
  | Ok (chunks, embeddings) =>
      match FAISS_from_texts chunks embeddings with
      | Raise e => processing_error f e
      | Ok temp =>
          match v with
          | None => st_success (lit "Processed: " ++ name f)
          | Some v0 =>
              match snd (merge_from v0 temp) with
              | Some e => processing_error f e
              | None => st_success (lit "Processed: " ++ name f)
              end
          end
      end
  end.

(** The reports of a batch, the index moving from file to file. *)
Fixpoint reports (sec : secrets) (v : option VectorStore)
    (files : list UploadedFile) : list event :=
  match files with
  | [] => []
  | f :: rest => report_of sec v f :: reports sec (index_after sec v f) rest
  end.

End Reports.

(** What lines 158-160 draw for one entry of
    [enumerate(follow_up_questions)] when its Copy button is not pressed. *)
Definition follow_up_item_page (item : nat * str) : list event :=
  let '(idx, follow_up) := item in
  if truthy (strip follow_up)
  then [st_markdown (lit "- " ++ strip follow_up);
        st_button_shown (lit "Copy") (lit "copy_follow_up_" ++ of_nat idx)]
  else [].

(** What lines 155-160 draw for [follow_up_questions] when no Copy button
    is pressed. *)
Definition follow_up_page (follow_up_questions : list str) : list event :=
  match follow_up_questions with
  | [] => []
  | _ :: _ =>
      st_markdown (lit "**Follow-up Questions:**")
        :: flat_map follow_up_item_page
             (combine (seq 0 (length follow_up_questions))
                follow_up_questions)
  end.

(** The markdown lines of the history expander, none when it is not
    drawn. *)
Definition view_lines (conversation_history : list entry) : list str :=
  match history_view conversation_history with
  | Some (_, lines) => lines
  | None => []
  end.

(** Whether some tile is pressed. *)
Definition any_tile (t : tiles) : bool :=
  revenue t || expenses t || profit_metrics t || assets t || gaps t.

(* ================================================================== *)
(** ** Two more small worlds *)

Module Toy2.

Definition timeout : exn := Exception (lit "embedding request timed out").

(** As [Toy.world], with a search that raises. *)
Definition offline : Externals := {|
  UploadedFile := Toy.file;
  name := Toy.file_name;
  Page := result (option str);
  Embeddings := str;
  VectorStore := list str;
  ChatModel := str;
  PdfReader := Toy.file_pages;
  extract_text := fun page => page;
  split_text := fun _ _ text => match text with [] => [] | _ :: _ => [text] end;
  OpenAIEmbeddings := fun key => Ok key;
  FAISS_from_texts := fun chunks _ =>
    match chunks with
    | [] => Raise (Exception (lit "list index out of range"))
    | _ :: _ => Ok chunks
    end;
  merge_from := fun v temp => (v ++ temp, None);
  similarity_search := fun _ _ _ => Raise timeout;
  ChatGroq := fun model_name _ => Ok model_name;
  invoke := fun _ _ => Ok sample_answer;
  st_button := fun _ _ => false;
  pyperclip_copy := fun _ => Ok tt
|}.

Definition no_tiles : tiles := Tiles false false false false false.

Definition earlier : list entry :=
  [Entry (lit "What is EBITDA?") (lit "Earnings before interest.")].

End Toy2.

(** Lines 111-114 within a run: the value of the radio once the tiles
    have been handled, or [""] when there is nothing to choose from. *)
Definition app_question {X : Externals} (w : app_widgets) (ss : session)
  : str :=
  match press_tiles (app_tiles w) (predefined_of ss) with
  | [] => []
  | _ :: _ => app_radio w
  end.

(* ================================================================== *)
(** ** Facts about the string operations *)

Module PyStrFacts.

Lemma starts_with_app (p r : str) : starts_with p (p ++ r) = true.
Proof.
  induction p as [|a p IH]; simpl; [reflexivity|].
  now rewrite N.eqb_refl, IH.
Qed.

Lemma starts_with_inv (p s : str) :
  starts_with p s = true -> s = p ++ skipn (length p) s.
Proof.
  revert s; induction p as [|a p IH]; intros [|b s] H; simpl in *;
    try reflexivity; try discriminate.
  apply andb_true_iff in H as [Hab Hps].
  apply N.eqb_eq in Hab; subst b.
  f_equal; now apply IH.
Qed.

Lemma starts_with_nth (p s : str) (k : nat) (d : char) :
  starts_with p s = true -> k < length p -> nth k s d = nth k p d.
Proof.
  revert s k; induction p as [|a p IH]; intros [|b s] k H Hk; simpl in *;
    try lia; try discriminate.
  apply andb_true_iff in H as [Hab Hps].
  apply N.eqb_eq in Hab; subst b.
  destruct k as [|k]; [reflexivity|].
  apply IH; [assumption | lia].
Qed.

(** A long enough text decides alone whether it starts with [p]. *)
Lemma starts_with_app_long (p a r : str) :
  length p <= length a -> starts_with p (a ++ r) = starts_with p a.
Proof.
  revert a; induction p as [|x p IH]; intros [|y a] Hlen; simpl in *;
    try reflexivity; try lia.
  rewrite IH by lia; reflexivity.
Qed.

Lemma find_cons (sub : str) (c : char) (s : str) :
  find sub (c :: s) =
  if starts_with sub (c :: s) then Some 0 else option_map S (find sub s).
Proof. reflexivity. Qed.

Lemma find_nil (sub : str) :
  find sub [] = if starts_with sub [] then Some 0 else None.
Proof. reflexivity. Qed.

(** [find] returns a place where [sub] occurs. *)
Lemma find_Some_occurs (sub s : str) (i : nat) :
  find sub s = Some i ->
  s = firstn i s ++ sub ++ skipn (i + length sub) s /\ i + length sub <= length s.
Proof.
  revert i; induction s as [|c s IH]; intros i H.
  - rewrite find_nil in H.
    destruct (starts_with sub []) eqn:E; [|discriminate].
    injection H as <-. destruct sub; [|discriminate]. simpl; auto.
  - rewrite find_cons in H.
    destruct (starts_with sub (c :: s)) eqn:E.
    + injection H as <-. split.
      * simpl firstn. simpl app at 1. now apply starts_with_inv.
      * apply starts_with_inv in E.
        apply (f_equal (@Datatypes.length _)) in E.
        rewrite length_app in E. simpl in *. lia.
    + destruct (find sub s) as [j|] eqn:F; [|discriminate].
      injection H as <-. destruct (IH j eq_refl) as [Hs Hlen].
      split; [|simpl; lia].
      simpl. f_equal. exact Hs.
Qed.

(** ... and it is the first one. *)
Lemma find_Some_first (sub s : str) (i j : nat) :
  find sub s = Some i -> j < i -> starts_with sub (skipn j s) = false.
Proof.
  revert i j; induction s as [|c s IH]; intros i j H Hj.
  - rewrite find_nil in H. destruct (starts_with sub []); [|discriminate].
    injection H as <-; lia.
  - rewrite find_cons in H.
    destruct (starts_with sub (c :: s)) eqn:E.
    + injection H as <-; lia.
    + destruct (find sub s) as [i'|] eqn:F; [|discriminate].
      injection H as <-.
      destruct j as [|j]; [exact E|].
      simpl. apply (IH i'); [reflexivity | lia].
Qed.

Lemma find_None_nowhere (sub s : str) (j : nat) :
  find sub s = None -> starts_with sub (skipn j s) = false.
Proof.
  revert j; induction s as [|c s IH]; intros j H.
  - rewrite find_nil in H. rewrite skipn_nil.
    destruct (starts_with sub []); [discriminate | reflexivity].
  - rewrite find_cons in H.
    destruct (starts_with sub (c :: s)) eqn:E; [discriminate|].
    destruct (find sub s) eqn:F; [discriminate|].
    destruct j as [|j]; [exact E|]. simpl. now apply IH.
Qed.

Lemma contains_find (sub s : str) :
  contains sub s = false <-> find sub s = None.
Proof.
  unfold contains; destruct (find sub s); split; congruence.
Qed.

(** *** [split]: enough rounds *)

Lemma split_rounds_enough (sep : str) :
  sep <> [] ->
  forall n m s, length s < n -> length s < m ->
    split_rounds n sep s = split_rounds m sep s.
Proof.
  intros Hsep n; induction n as [|n IH]; intros m s Hn Hm; [lia|].
  destruct m as [|m]; [lia|]. simpl.
  destruct (find sep s) as [i|] eqn:F; [|reflexivity].
  f_equal. apply find_Some_occurs in F as [_ Hlen].
  assert (0 < length sep) by (destruct sep; [congruence | simpl; lia]).
  apply IH; rewrite length_skipn; lia.
Qed.

Lemma split_unfold (sep s : str) :
  sep <> [] ->
  split sep s =
  match find sep s with
  | None => [s]
  | Some i => firstn i s :: split sep (skipn (i + length sep) s)
  end.
Proof.
  intros Hsep. unfold split at 1. simpl.
  destruct (find sep s) as [i|] eqn:F; [|reflexivity].
  f_equal. unfold split.
  apply find_Some_occurs in F as [_ Hlen].
  assert (0 < length sep) by (destruct sep; [congruence | simpl; lia]).
  apply split_rounds_enough; [assumption | | ]; rewrite ?length_skipn; lia.
Qed.

Lemma split_not_nil (sep s : str) : split sep s <> [].
Proof.
  unfold split; simpl. destruct (find sep s); discriminate.
Qed.

End PyStrFacts.

(* ================================================================== *)
(** ** Lines and surrounding whitespace *)

Module LineFacts.
Import PyStrFacts.

Lemma NL_is_space : is_space NL = true.
Proof. reflexivity. Qed.

Lemma NL_sep : [NL] <> [].
Proof. discriminate. Qed.

Lemma lines_nil : split [NL] [] = [[]].
Proof. reflexivity. Qed.

Lemma lines_cons_NL (s : str) : split [NL] (NL :: s) = [] :: split [NL] s.
Proof. rewrite split_unfold by apply NL_sep. reflexivity. Qed.

Lemma lines_cons_other (x : char) (s : str) :
  x <> NL ->
  exists l0 rest,
    split [NL] s = l0 :: rest /\ split [NL] (x :: s) = (x :: l0) :: rest.
Proof.
  intros Hx.
  rewrite (split_unfold [NL] (x :: s)) by apply NL_sep.
  rewrite (split_unfold [NL] s) by apply NL_sep.
  rewrite find_cons.
  assert (E : starts_with [NL] (x :: s) = false).
  { change (starts_with [NL] (x :: s)) with ((NL =? x)%N && true).
    rewrite andb_true_r. apply N.eqb_neq. congruence. }
  rewrite E. destruct (find [NL] s) as [i|]; simpl.
  - eexists _, _; split; reflexivity.
  - eexists _, _; split; reflexivity.
Qed.

Lemma lines_snoc_NL (s : str) :
  split [NL] (s ++ [NL]) = split [NL] s ++ [[]].
Proof.
  induction s as [|y s IH]; [reflexivity|].
  destruct (N.eq_dec y NL) as [->|Hy].
  - simpl app. rewrite !lines_cons_NL, IH. reflexivity.
  - destruct (lines_cons_other y (s ++ [NL]) Hy) as (l0 & rest & E1 & E2).
    destruct (lines_cons_other y s Hy) as (l0' & rest' & E1' & E2').
    simpl app. rewrite E2, E2'.
    rewrite IH, E1' in E1. simpl in E1. injection E1 as <- <-. reflexivity.
Qed.

Lemma lines_snoc_other (x : char) (s : str) :
  x <> NL ->
  exists init lst,
    split [NL] s = init ++ [lst] /\
    split [NL] (s ++ [x]) = init ++ [lst ++ [x]].
Proof.
  intros Hx. induction s as [|y s (init & lst & E & Ex)].
  - exists [], []. split; [reflexivity|].
    destruct (lines_cons_other x [] Hx) as (l0 & rest & E1 & E2).
    rewrite lines_nil in E1. injection E1 as <- <-. exact E2.
  - destruct (N.eq_dec y NL) as [->|Hy].
    + exists ([] :: init), lst. simpl app.
      rewrite !lines_cons_NL, E, Ex. split; reflexivity.
    + destruct (lines_cons_other y (s ++ [x]) Hy) as (l0 & rest & E1 & E2).
      destruct (lines_cons_other y s Hy) as (l0' & rest' & E1' & E2').
      simpl app. rewrite E2, E2'.
      rewrite E in E1'. rewrite Ex in E1.
      destruct init as [|i0 init]; simpl in E1, E1'.
      * injection E1 as <- <-. injection E1' as <- <-.
        exists [], (y :: lst). split; reflexivity.
      * injection E1 as <- <-. injection E1' as <- <-.
        exists ((y :: i0) :: init), lst. split; reflexivity.
Qed.

Lemma rstrip_snoc (s : str) (x : char) :
  rstrip (s ++ [x]) = if is_space x then rstrip s else s ++ [x].
Proof.
  unfold rstrip. rewrite rev_app_distr. simpl.
  destruct (is_space x); [reflexivity|].
  simpl. now rewrite rev_involutive.
Qed.

Lemma strip_cons_space (x : char) (s : str) :
  is_space x = true -> strip (x :: s) = strip s.
Proof. intros H. unfold strip. simpl. now rewrite H. Qed.

Lemma lstrip_snoc_space (x : char) (s : str) :
  is_space x = true ->
  lstrip (s ++ [x]) = match lstrip s with [] => [] | _ :: _ => lstrip s ++ [x] end.
Proof.
  intros H. induction s as [|y s IH]; simpl.
  - now rewrite H.
  - destruct (is_space y); [exact IH | reflexivity].
Qed.

Lemma strip_snoc_space (x : char) (s : str) :
  is_space x = true -> strip (s ++ [x]) = strip s.
Proof.
  intros H. unfold strip. rewrite (lstrip_snoc_space x s H).
  destruct (lstrip s) as [|c l] eqn:E; [reflexivity|].
  rewrite rstrip_snoc, H. reflexivity.
Qed.

Lemma strip_nil : strip [] = [].
Proof. reflexivity. Qed.

Lemma shown_app (l1 l2 : list str) :
  shown_follow_ups (l1 ++ l2) = shown_follow_ups l1 ++ shown_follow_ups l2.
Proof. unfold shown_follow_ups. now rewrite map_app, filter_app. Qed.

Lemma shown_cons (l0 : str) (rest : list str) :
  shown_follow_ups (l0 :: rest) = shown_follow_ups [l0] ++ shown_follow_ups rest.
Proof. apply (shown_app [l0] rest). Qed.

(** Whitespace dropped at the front of the text does not change what is
    shown of its lines. *)
Lemma shown_lines_cons_space (x : char) (s : str) :
  is_space x = true ->
  shown_follow_ups (split [NL] (x :: s)) = shown_follow_ups (split [NL] s).
Proof.
  intros H. destruct (N.eq_dec x NL) as [->|Hx].
  - rewrite lines_cons_NL. reflexivity.
  - destruct (lines_cons_other x s Hx) as (l0 & rest & E1 & E2).
    rewrite E1, E2, (shown_cons (x :: l0)), (shown_cons l0).
    f_equal. unfold shown_follow_ups. simpl.
    now rewrite (strip_cons_space x l0 H).
Qed.

Lemma shown_lines_lstrip (s : str) :
  shown_follow_ups (split [NL] (lstrip s)) = shown_follow_ups (split [NL] s).
Proof.
  induction s as [|x s IH]; [reflexivity|]. simpl lstrip.
  destruct (is_space x) eqn:H; [|reflexivity].
  now rewrite IH, (shown_lines_cons_space x s H).
Qed.

(** The same at the end of the text. *)
Lemma shown_lines_snoc_space (x : char) (s : str) :
  is_space x = true ->
  shown_follow_ups (split [NL] (s ++ [x])) = shown_follow_ups (split [NL] s).
Proof.
  intros H. destruct (N.eq_dec x NL) as [->|Hx].
  - rewrite lines_snoc_NL, shown_app. unfold shown_follow_ups at 2. simpl.
    now rewrite app_nil_r.
  - destruct (lines_snoc_other x s Hx) as (init & lst & E1 & E2).
    rewrite E1, E2, !shown_app. f_equal.
    unfold shown_follow_ups. simpl. now rewrite (strip_snoc_space x lst H).
Qed.

Lemma shown_lines_rstrip (s : str) :
  shown_follow_ups (split [NL] (rstrip s)) = shown_follow_ups (split [NL] s).
Proof.
  induction s as [|x s IH] using rev_ind; [reflexivity|].
  rewrite rstrip_snoc. destruct (is_space x) eqn:H; [|reflexivity].
  now rewrite IH, (shown_lines_snoc_space x s H).
Qed.

(** Stripping the whole text first, as line 147 does, changes nothing of
    what is shown: it is the list the spec describes. *)
Lemma shown_lines_strip (s : str) :
  shown_follow_ups (split [NL] (strip s)) = spec_follow_ups s.
Proof.
  unfold strip, spec_follow_ups.
  rewrite shown_lines_rstrip, shown_lines_lstrip. reflexivity.
Qed.

End LineFacts.

(* ================================================================== *)
(** ** Splitting on the marker *)

Module MarkerFacts.
Import PyStrFacts LineFacts.

Lemma marker_length : length marker = 20.
Proof. reflexivity. Qed.

Lemma marker_sep : marker <> [].
Proof. discriminate. Qed.

(** The capital F of the marker occurs in it once, in front; so two
    occurrences of the marker in a text never overlap. *)
Lemma marker_F_once (k : nat) :
  0 < k < 20 -> nth k marker 0%N <> 70%N.
Proof.
  intros [H0 H20].
  do 20 (destruct k as [|k]; [try lia; vm_compute; discriminate|]).
  lia.
Qed.

Lemma marker_not_at (a r : str) :
  a <> [] -> starts_with marker a = false ->
  starts_with marker (a ++ marker ++ r) = false.
Proof.
  intros Ha Hsw.
  destruct (le_lt_dec (length marker) (length a)) as [Hle|Hlt].
  - now rewrite starts_with_app_long.
  - destruct (starts_with marker (a ++ marker ++ r)) eqn:E; [|reflexivity].
    exfalso.
    assert (Hk : 0 < length a < 20).
    { rewrite marker_length in Hlt. destruct a; [congruence | simpl in *; lia]. }
    apply (marker_F_once (length a) Hk).
    rewrite <- (starts_with_nth marker (a ++ marker ++ r) (length a) 0%N E)
      by (rewrite marker_length; lia).
    rewrite app_nth2 by lia. rewrite Nat.sub_diag. reflexivity.
Qed.

(** After a text without the marker, the marker is found right at its end. *)
Lemma find_marker_app (a r : str) :
  find marker a = None -> find marker (a ++ marker ++ r) = Some (length a).
Proof.
  induction a as [|x a IH]; intros H.
  - rewrite app_nil_l.
    pose proof (starts_with_app marker r) as E.
    destruct (marker ++ r) as [|c s] eqn:Em.
    + rewrite find_nil, E. reflexivity.
    + rewrite find_cons, E. reflexivity.
  - rewrite find_cons in H.
    destruct (starts_with marker (x :: a)) eqn:E; [discriminate|].
    destruct (find marker a) eqn:F; [discriminate|].
    rewrite <- app_comm_cons, find_cons, app_comm_cons.
    rewrite marker_not_at by (congruence || assumption).
    rewrite IH by reflexivity. reflexivity.
Qed.

Lemma firstn_exact (a r : str) : firstn (length a) (a ++ r) = a.
Proof.
  rewrite firstn_app, firstn_all, Nat.sub_diag, firstn_O, app_nil_r.
  reflexivity.
Qed.

Lemma skipn_past_marker (a b : str) :
  skipn (length a + length marker) (a ++ marker ++ b) = b.
Proof.
  rewrite app_assoc, <- length_app.
  rewrite skipn_app, skipn_all, Nat.sub_diag. reflexivity.
Qed.

(** What lines 143-149 compute, by the first occurrence of the marker. *)
Lemma extract_follow_ups_found (text : str) (i : nat) :
  find marker text = Some i ->
  extract_follow_ups text =
  Ok (firstn i text,
      split [NL] (strip (up_to_marker (skipn (i + length marker) text)))).
Proof.
  intros F. unfold extract_follow_ups, contains. rewrite F.
  rewrite (split_unfold marker text marker_sep), F.
  rewrite (split_unfold marker (skipn (i + length marker) text) marker_sep).
  unfold up_to_marker.
  destruct (find marker (skipn (i + length marker) text)); reflexivity.
Qed.

Lemma extract_follow_ups_absent (text : str) :
  find marker text = None -> extract_follow_ups text = Ok (text, []).
Proof.
  intros F. unfold extract_follow_ups, contains. now rewrite F.
Qed.

End MarkerFacts.

(* ================================================================== *)
(** ** Running the script *)

Section RunFacts.

Context {X : Externals}.

#[local] Arguments lit : simpl never.

Lemma log_nil (s : state) : log s [] = s.
Proof. destruct s; unfold log; simpl. now rewrite app_nil_r. Qed.

Lemma log_log (s : state) (a b : list event) :
  log (log s a) b = log s (a ++ b).
Proof. unfold log; simpl. now rewrite app_assoc. Qed.

Lemma log_inj (s : state) (a b : list event) : log s a = log s b -> a = b.
Proof.
  intros H. apply (f_equal trace) in H. simpl in H.
  now apply app_inv_head in H.
Qed.

Lemma forallb_page_app (a b : list event) :
  forallb page_event a = true -> forallb page_event b = true ->
  forallb page_event (a ++ b) = true.
Proof. intros Ha Hb. rewrite forallb_app, Ha, Hb. reflexivity. Qed.

Lemma markdown_bodies_app (a b : list event) :
  markdown_bodies (a ++ b) = markdown_bodies a ++ markdown_bodies b.
Proof.
  induction a as [|e a IH]; [reflexivity|]. simpl.
  destruct (markdown_body e); simpl; now rewrite IH.
Qed.

(** *** Showing the follow-ups *)

(** One round of the loop only touches the page and the clipboard. *)
Lemma show_follow_up_page (item : nat * str) (s : state) :
  exists r tl,
    show_follow_up item s = (r, log s tl) /\ forallb page_event tl = true.
Proof.
  destruct item as [idx follow_up].
  unfold show_follow_up, bind, emit, lift, ret.
  destruct (truthy (strip follow_up)); [|exists (Ok tt), []; now rewrite log_nil].
  destruct (st_button (lit "Copy") (lit "copy_follow_up_" ++ of_nat idx)).
  - destruct (pyperclip_copy (strip follow_up)) as [[]|e];
      rewrite !log_log; eexists _, _; split; reflexivity.
  - rewrite !log_log; eexists _, _; split; reflexivity.
Qed.

Lemma for_each_page {A} (body : A -> M unit) :
  (forall x s, exists r tl,
      body x s = (r, log s tl) /\ forallb page_event tl = true) ->
  forall l s, exists r tl,
      for_each l body s = (r, log s tl) /\ forallb page_event tl = true.
Proof.
  intros Hbody l; induction l as [|x l IH]; intros s.
  - exists (Ok tt), []. now rewrite log_nil.
  - destruct (Hbody x s) as (r & tl & E & Hp).
    simpl. unfold bind. rewrite E. destruct r as [[]|e].
    + destruct (IH (log s tl)) as (r' & tl' & E' & Hp').
      rewrite E', log_log. exists r', (tl ++ tl').
      split; [reflexivity | now apply forallb_page_app].
    + exists (Raise e), tl. now split.
Qed.

Lemma show_follow_ups_page (follow_up_questions : list str) (s : state) :
  exists r tl,
    show_follow_ups follow_up_questions s = (r, log s tl) /\
    forallb page_event tl = true.
Proof.
  unfold show_follow_ups.
  destruct follow_up_questions as [|f fs];
    [exists (Ok tt), []; unfold ret; now rewrite log_nil|].
  unfold bind, emit.
  destruct (for_each_page show_follow_up show_follow_up_page
              (enumerate (f :: fs))
              (log s [st_markdown (lit "**Follow-up Questions:**")]))
    as (r & tl & E & Hp).
  rewrite E, log_log. eexists _, _. split; [reflexivity|].
  simpl. exact Hp.
Qed.

(** One round of the loop when no Copy button is pressed. *)
Lemma show_follow_up_unpressed :
  (forall label key, st_button label key = false) ->
  forall (idx : nat) (follow_up : str) (s : state),
    show_follow_up (idx, follow_up) s =
    (Ok tt,
     log s (if truthy (strip follow_up)
            then [st_markdown (lit "- " ++ strip follow_up);
                  st_button_shown (lit "Copy")
                    (lit "copy_follow_up_" ++ of_nat idx)]
            else [])).
Proof.
  intros Hno idx follow_up s. unfold show_follow_up.
  destruct (truthy (strip follow_up)).
  - unfold bind, emit, ret. rewrite Hno, log_log. reflexivity.
  - unfold ret. now rewrite log_nil.
Qed.

(** With no Copy button pressed, the loop lists exactly
    [shown_follow_ups]. *)
Lemma show_each_bullets :
  (forall label key, st_button label key = false) ->
  forall (l : list str) (start : nat) (s : state),
  exists tl,
    for_each (combine (seq start (length l)) l) show_follow_up s
      = (Ok tt, log s tl) /\
    forallb page_event tl = true /\
    markdown_bodies tl = map (fun q => lit "- " ++ q) (shown_follow_ups l).
Proof.
  intros Hno l; induction l as [|f l IH]; intros start s.
  - exists []. simpl. unfold ret. now rewrite log_nil.
  - cbn [length seq combine for_each]. unfold bind.
    rewrite (show_follow_up_unpressed Hno).
    destruct (IH (S start)
                (log s (if truthy (strip f)
                        then [st_markdown (lit "- " ++ strip f);
                              st_button_shown (lit "Copy")
                                (lit "copy_follow_up_" ++ of_nat start)]
                        else [])))
      as (tl & E & Hp & Hb).
    rewrite E, log_log. eexists. split; [reflexivity|].
    unfold shown_follow_ups in *. cbn [map filter].
    destruct (truthy (strip f)); cbn [app forallb page_event andb
                                      markdown_bodies markdown_body map];
      rewrite ?Hb; auto.
Qed.

Lemma show_follow_ups_bullets :
  (forall label key, st_button label key = false) ->
  forall (follow_up_questions : list str) (s : state),
  exists tl,
    show_follow_ups follow_up_questions s = (Ok tt, log s tl) /\
    markdown_bodies tl =
      match follow_up_questions with
      | [] => []
      | _ :: _ =>
          lit "**Follow-up Questions:**"
            :: map (fun q => lit "- " ++ q)
                 (shown_follow_ups follow_up_questions)
      end.
Proof.
  intros Hno fq s. unfold show_follow_ups.
  destruct fq as [|f fs]; [exists []; unfold ret; now rewrite log_nil|].
  unfold bind, emit, enumerate.
  destruct (show_each_bullets Hno (f :: fs) 0
              (log s [st_markdown (lit "**Follow-up Questions:**")]))
    as (tl & E & _ & Hb).
  rewrite E, log_log. eexists. split; [reflexivity|].
  simpl. now rewrite Hb.
Qed.

Lemma show_each_unpressed :
  (forall label key, st_button label key = false) ->
  forall (l : list str) (start : nat) (s : state),
    for_each (combine (seq start (length l)) l) show_follow_up s
    = (Ok tt,
       log s (flat_map follow_up_item_page (combine (seq start (length l)) l))).
Proof.
  intros Hno l; induction l as [|f l IH]; intros start s.
  - simpl. unfold ret. now rewrite log_nil.
  - cbn [length seq combine for_each flat_map]. unfold bind.
    rewrite (show_follow_up_unpressed Hno), IH, log_log. reflexivity.
Qed.

(** With no Copy button pressed, the loop draws [follow_up_page]. *)
Lemma show_follow_ups_unpressed :
  (forall label key, st_button label key = false) ->
  forall (follow_up_questions : list str) (s : state),
    show_follow_ups follow_up_questions s
    = (Ok tt, log s (follow_up_page follow_up_questions)).
Proof.
  intros Hno fq s. unfold show_follow_ups, follow_up_page.
  destruct fq as [|f fs]; [unfold ret; now rewrite log_nil|].
  unfold bind, emit, enumerate.
  rewrite (show_each_unpressed Hno), log_log. reflexivity.
Qed.

End RunFacts.

(* ================================================================== *)
(** ** The Submit handler, case by case *)

Section HandlerFacts.

Context {X : Externals}.

#[local] Arguments lit : simpl never.

Ltac forall_events :=
  cbn [app];
  repeat (apply Forall_cons; [try assumption|]);
  try apply Forall_nil.

Lemma submit_handler_warns (cfg : settings) (sec : secrets)
    (question custom_question : str) (s : state) :
  vector_store s = None \/ resolve_question custom_question question = [] ->
  submit_handler cfg sec question custom_question s
    = (Ok tt, log s [no_document_warning]).
Proof.
  intros H. unfold submit_handler, bind, get_vector_store.
  destruct H as [H|H]; rewrite H.
  - reflexivity.
  - destruct (vector_store s); reflexivity.
Qed.

Lemma submit_handler_answers (cfg : settings) (sec : secrets)
    (question custom_question : str) (s : state) (store : VectorStore) :
  vector_store s = Some store ->
  truthy (resolve_question custom_question question) = true ->
  submit_handler cfg sec question custom_question s
    = answer_question cfg sec store
        (resolve_question custom_question question) s.
Proof.
  intros Hs Hq. unfold submit_handler, bind, get_vector_store.
  now rewrite Hs, Hq.
Qed.

Lemma answer_question_search_fails (cfg : settings) (sec : secrets)
    (store : VectorStore) (q : str) (s : state) (e : exn) :
  similarity_search store q 3 = Raise e ->
  answer_question cfg sec store q s
    = (Raise e, log s [similarity_search_call q 3]).
Proof.
  intros H. unfold answer_question, bind, emit, lift. now rewrite H.
Qed.

Lemma answer_question_found (cfg : settings) (sec : secrets)
    (store : VectorStore) (q : str) (s : state) (docs : list Document) :
  similarity_search store q 3 = Ok docs ->
  answer_question cfg sec store q s
    = try_except
        (generate_response cfg sec
           (build_prompt
              (limit_context (join_chunks docs) (max_context_length cfg)) q)
           q)
        (fun e =>
           emit (st_error (lit "Error generating response: " ++ exn_str e)))
        (log s [similarity_search_call q 3]).
Proof.
  intros H. unfold answer_question, bind, emit, lift. now rewrite H.
Qed.

Lemma generate_response_client_fails (cfg : settings) (sec : secrets)
    (prompt q : str) (s : state) (e : exn) :
  ChatGroq (selected_model cfg) (groq_api_key sec) = Raise e ->
  generate_response cfg sec prompt q s
    = (Raise e, log s [ChatGroq_call (selected_model cfg) (groq_api_key sec)]).
Proof.
  intros H. unfold generate_response, bind, emit, lift. now rewrite H.
Qed.

Lemma generate_response_invoke_fails (cfg : settings) (sec : secrets)
    (prompt q : str) (s : state) (llm : ChatModel) (e : exn) :
  ChatGroq (selected_model cfg) (groq_api_key sec) = Ok llm ->
  invoke llm [Message (lit "user") prompt] = Raise e ->
  generate_response cfg sec prompt q s
    = (Raise e, log s [ChatGroq_call (selected_model cfg) (groq_api_key sec);
                       invoke_call [Message (lit "user") prompt]]).
Proof.
  intros H1 H2. unfold generate_response, bind, emit, lift.
  now rewrite H1, H2, log_log.
Qed.

Lemma generate_response_answered (cfg : settings) (sec : secrets)
    (prompt q : str) (s : state) (llm : ChatModel)
    (text main : str) (fq : list str) :
  ChatGroq (selected_model cfg) (groq_api_key sec) = Ok llm ->
  invoke llm [Message (lit "user") prompt] = Ok text ->
  extract_follow_ups text = Ok (main, fq) ->
  generate_response cfg sec prompt q s
    = bind (show_follow_ups fq)
        (fun _ => append_history (Entry q main))
        (log s [ChatGroq_call (selected_model cfg) (groq_api_key sec);
                invoke_call [Message (lit "user") prompt];
                st_markdown (lit "**Response:**" ++ [NL; NL] ++ main)]).
Proof.
  intros H1 H2 H3. unfold generate_response, bind, emit, lift.
  rewrite H1, H2, H3, !log_log. reflexivity.
Qed.

Lemma extract_follow_ups_total (text : str) :
  exists main fq, extract_follow_ups text = Ok (main, fq).
Proof.
  destruct (find marker text) as [i|] eqn:F.
  - eexists _, _. apply (MarkerFacts.extract_follow_ups_found _ _ F).
  - eexists _, _. apply (MarkerFacts.extract_follow_ups_absent _ F).
Qed.

(** Whatever the services do, the body of the [try] builds the client,
    sends at most the given prompt, touches the page, and records at most
    one entry, for the given question. *)
Lemma generate_response_shape (cfg : settings) (sec : secrets)
    (context q : str) (s : state) :
  exists r s' tl,
    generate_response cfg sec (build_prompt context q) q s = (r, s') /\
    vector_store s' = vector_store s /\
    trace s' = trace s ++ tl /\
    Forall (answering_event cfg sec q) tl /\
    (conversation_history s' = conversation_history s \/
     exists main,
       r = Ok tt /\
       conversation_history s' = conversation_history s ++ [Entry q main]).
Proof.
  assert (Hc : answering_event cfg sec q
                 (ChatGroq_call (selected_model cfg) (groq_api_key sec)))
    by (right; left; reflexivity).
  assert (Hi : answering_event cfg sec q
                 (invoke_call [Message (lit "user") (build_prompt context q)]))
    by (right; right; now exists context).
  destruct (ChatGroq (selected_model cfg) (groq_api_key sec)) as [llm|e] eqn:E1.
  2:{ rewrite (generate_response_client_fails _ _ _ _ _ _ E1).
      eexists _, _, _. split; [reflexivity|].
      split; [reflexivity|]. split; [reflexivity|].
      split; [forall_events | left; reflexivity]. }
  destruct (invoke llm [Message (lit "user") (build_prompt context q)])
    as [text|e] eqn:E2.
  2:{ rewrite (generate_response_invoke_fails _ _ _ _ _ _ _ E1 E2).
      eexists _, _, _. split; [reflexivity|].
      split; [reflexivity|]. split; [reflexivity|].
      split; [forall_events | left; reflexivity]. }
  destruct (extract_follow_ups_total text) as (main & fq & E3).
  rewrite (generate_response_answered _ _ _ _ _ _ _ _ _ E1 E2 E3).
  unfold bind.
  destruct (show_follow_ups_page fq
              (log s [ChatGroq_call (selected_model cfg) (groq_api_key sec);
                      invoke_call [Message (lit "user") (build_prompt context q)];
                      st_markdown (lit "**Response:**" ++ [NL; NL] ++ main)]))
    as (r & tl & E4 & Hp).
  rewrite E4, log_log.
  assert (Hall : Forall (answering_event cfg sec q)
            ([ChatGroq_call (selected_model cfg) (groq_api_key sec);
              invoke_call [Message (lit "user") (build_prompt context q)];
              st_markdown (lit "**Response:**" ++ [NL; NL] ++ main)] ++ tl)).
  { apply Forall_app; split.
    - forall_events. left; reflexivity.
    - apply Forall_forall. intros e He. left.
      rewrite forallb_forall in Hp. now apply Hp. }
  destruct r as [[]|e].
  - unfold append_history. eexists _, _, _. split; [reflexivity|].
    split; [reflexivity|]. split; [reflexivity|].
    split; [exact Hall|]. right. exists main. now split.
  - eexists _, _, _. split; [reflexivity|].
    split; [reflexivity|]. split; [reflexivity|].
    split; [exact Hall|]. now left.
Qed.

Lemma answer_question_shape (cfg : settings) (sec : secrets)
    (store : VectorStore) (q : str) (s : state) :
  exists r s' tl,
    answer_question cfg sec store q s = (r, s') /\
    vector_store s' = vector_store s /\
    trace s' = trace s ++ similarity_search_call q 3 :: tl /\
    Forall (answering_event cfg sec q) tl /\
    (conversation_history s' = conversation_history s \/
     exists main,
       r = Ok tt /\
       conversation_history s' = conversation_history s ++ [Entry q main]).
Proof.
  destruct (similarity_search store q 3) as [docs|e] eqn:E.
  - rewrite (answer_question_found _ _ _ _ _ _ E). unfold try_except.
    destruct (generate_response_shape cfg sec
                (limit_context (join_chunks docs) (max_context_length cfg)) q
                (log s [similarity_search_call q 3]))
      as (r & s' & tl & Er & Hv & Ht & Hall & Hh).
    rewrite Er. destruct r as [[]|e].
    + exists (Ok tt), s', tl. repeat split; try assumption.
      rewrite Ht. simpl. now rewrite <- app_assoc.
    + destruct Hh as [Hh|(main & Hr & _)]; [|discriminate].
      unfold emit. eexists _, _, _. split; [reflexivity|].
      repeat split.
      * simpl. exact Hv.
      * simpl. rewrite Ht. simpl. rewrite <- !app_assoc. reflexivity.
      * apply Forall_app; split; [exact Hall|].
        forall_events. left; reflexivity.
      * left. simpl. exact Hh.
  - rewrite (answer_question_search_fails _ _ _ _ _ _ E).
    exists (Raise e), (log s [similarity_search_call q 3]), [].
    split; [reflexivity|]. split; [reflexivity|]. split; [reflexivity|].
    split; [apply Forall_nil | now left].
Qed.

(** The handler when the chat client cannot be built: the error is shown,
    nothing is sent. *)
Lemma submit_handler_client_fails (cfg : settings) (sec : secrets)
    (question custom_question : str) (s : state) (store : VectorStore)
    (docs : list Document) (e : exn) :
  let q := resolve_question custom_question question in
  vector_store s = Some store ->
  truthy q = true ->
  similarity_search store q 3 = Ok docs ->
  ChatGroq (selected_model cfg) (groq_api_key sec) = Raise e ->
  submit_handler cfg sec question custom_question s
    = (Ok tt,
       log s [similarity_search_call q 3;
              ChatGroq_call (selected_model cfg) (groq_api_key sec);
              st_error (lit "Error generating response: " ++ exn_str e)]).
Proof.
  intros q Hs Hq Hd Hc.
  rewrite (submit_handler_answers cfg sec question custom_question s store Hs Hq).
  fold q. rewrite (answer_question_found cfg sec store q s docs Hd).
  unfold try_except.
  rewrite (generate_response_client_fails cfg sec _ q _ e Hc).
  unfold emit. rewrite !log_log. reflexivity.
Qed.

End HandlerFacts.

(* ================================================================== *)
(** ** The document loop, file by file *)

Section ProcessFacts.

Context {X : Externals}.

#[local] Arguments lit : simpl never.

(** A file whose extraction or embedding raises: the error is shown and
    nothing else changes. *)
Lemma process_file_fails (sec : secrets) (f : UploadedFile)
    (calls : list event) (e : exn) (s : state) :
  failure_of sec f = Some (calls, e) ->
  process_file sec f s = (Ok tt, log s (calls ++ [processing_error f e])).
Proof.
  unfold failure_of, process_file, try_except, bind, lift. intros H.
  destruct (read_chunks (openai_api_key sec) f) as [[chunks emb]|e0].
  - destruct (FAISS_from_texts chunks emb) as [v|e1] eqn:E; [discriminate|].
    injection H as <- <-.
    unfold add_to_store, bind, get_vector_store, emit, lift. cbn [fst snd].
    destruct (vector_store s); rewrite E, log_log; reflexivity.
  - injection H as <- <-. unfold emit. reflexivity.
Qed.

(** The loop body never lets an exception out. *)
Lemma process_file_caught (sec : secrets) (f : UploadedFile) (s : state) :
  outcome (process_file sec f) s = Ok tt.
Proof.
  unfold outcome, process_file, try_except.
  match goal with |- fst (match ?b with _ => _ end) = _ => destruct b as [[[]|e] s'] end;
    reflexivity.
Qed.

Lemma for_each_caught {A} (body : A -> M unit) :
  (forall x s, outcome (body x) s = Ok tt) ->
  forall l s, outcome (for_each l body) s = Ok tt.
Proof.
  intros Hbody l; induction l as [|x l IH]; intros s; [reflexivity|].
  specialize (Hbody x s). unfold outcome in *. simpl. unfold bind.
  destruct (body x s) as [[[]|e] s']; simpl in Hbody; [apply IH | discriminate].
Qed.

Lemma for_each_app {A} (body : A -> M unit) (l1 l2 : list A) (s : state) :
  outcome (for_each l1 body) s = Ok tt ->
  for_each (l1 ++ l2) body s = for_each l2 body (exec (for_each l1 body) s).
Proof.
  revert s; induction l1 as [|x l1 IH]; intros s H; [reflexivity|].
  unfold outcome, exec in *. simpl in *. unfold bind in *.
  destruct (body x s) as [[[]|e] s']; [|discriminate].
  now apply IH.
Qed.

End ProcessFacts.

(* ================================================================== *)
(** ** More on finding, stripping and lines *)

Module ParserFacts.
Import PyStrFacts LineFacts MarkerFacts.

Lemma starts_with_firstn (p s : str) (n : nat) :
  starts_with p (firstn n s) = true -> starts_with p s = true.
Proof.
  revert s n; induction p as [|a p IH]; intros s n H; [reflexivity|].
  destruct n as [|n]; [destruct s; discriminate|].
  destruct s as [|b s]; [discriminate|].
  simpl firstn in H. cbn [starts_with] in *.
  apply andb_true_iff in H as [Hab Hp].
  rewrite Hab. simpl. now apply IH with n.
Qed.

(** Nothing before the first occurrence holds an occurrence. *)
Lemma find_firstn_None (sub s : str) (i : nat) :
  sub <> [] -> find sub s = Some i -> find sub (firstn i s) = None.
Proof.
  intros Hsub. revert i; induction s as [|c s IH]; intros i H.
  - rewrite find_nil in H. destruct sub; [congruence | discriminate].
  - rewrite find_cons in H.
    destruct (starts_with sub (c :: s)) eqn:E.
    + injection H as <-. simpl firstn. rewrite find_nil.
      destruct sub; [congruence | reflexivity].
    + destruct (find sub s) as [j|] eqn:F; [|discriminate].
      injection H as <-. simpl firstn. rewrite find_cons.
      destruct (starts_with sub (c :: firstn j s)) eqn:E'.
      * apply (starts_with_firstn sub (c :: s) (S j)) in E'. congruence.
      * now rewrite (IH j eq_refl).
Qed.

Lemma lstrip_incl (s : str) (c : char) : In c (lstrip s) -> In c s.
Proof.
  induction s as [|x s IH]; simpl; [tauto|].
  destruct (is_space x); [right; now apply IH | tauto].
Qed.

Lemma strip_incl (s : str) (c : char) : In c (strip s) -> In c s.
Proof.
  unfold strip, rstrip. intros H.
  apply in_rev, lstrip_incl, in_rev in H. now apply lstrip_incl.
Qed.

Lemma lstrip_idem (s : str) : lstrip (lstrip s) = lstrip s.
Proof.
  induction s as [|x s IH]; [reflexivity|]. simpl.
  destruct (is_space x) eqn:E; [exact IH|]. simpl. now rewrite E.
Qed.

Lemma rstrip_idem (s : str) : rstrip (rstrip s) = rstrip s.
Proof. unfold rstrip. now rewrite rev_involutive, lstrip_idem. Qed.

(** Stripping at the end keeps a first character that is not whitespace. *)
Lemma rstrip_keeps_head (c : char) (t : str) :
  is_space c = false -> exists r, rstrip (c :: t) = c :: r.
Proof.
  intros Hc. induction t as [|x t [r IH]] using rev_ind.
  - exists []. unfold rstrip. simpl. now rewrite Hc.
  - rewrite app_comm_cons, rstrip_snoc.
    destruct (is_space x); [now exists r | now exists (t ++ [x])].
Qed.

Lemma lstrip_head (s : str) :
  lstrip s = [] \/ exists c t, lstrip s = c :: t /\ is_space c = false.
Proof.
  induction s as [|x s IH]; [now left|]. simpl.
  destruct (is_space x) eqn:E; [exact IH | right; now exists x, s].
Qed.

Lemma strip_idem (s : str) : strip (strip s) = strip s.
Proof.
  unfold strip at 2 3.
  destruct (lstrip_head s) as [E|(c & t & E & Hc)]; rewrite E.
  - reflexivity.
  - destruct (rstrip_keeps_head c t Hc) as [r Hr].
    unfold strip. rewrite Hr. simpl lstrip. rewrite Hc, <- Hr.
    apply rstrip_idem.
Qed.

(** A stripped text that is not empty begins and ends with characters
    that are not whitespace. *)
Lemma strip_head_not_space (s : str) (c : char) (t : str) :
  strip s = c :: t -> is_space c = false.
Proof.
  unfold strip.
  destruct (lstrip_head s) as [E|(c' & t' & E & Hc)]; rewrite E.
  - discriminate.
  - destruct (rstrip_keeps_head c' t' Hc) as [r Hr]. rewrite Hr.
    intros [= <- _]. exact Hc.
Qed.

Lemma rstrip_last_not_space (s : str) (c : char) (t : str) :
  rstrip s = t ++ [c] -> is_space c = false.
Proof.
  unfold rstrip. intros H.
  apply (f_equal (@rev char)) in H.
  rewrite rev_involutive, rev_app_distr in H. simpl in H.
  destruct (lstrip_head (rev s)) as [E|(c' & t' & E & Hc)];
    rewrite E in H; [discriminate|].
  now injection H as -> _.
Qed.

Lemma strip_last_not_space (s : str) (c : char) (t : str) :
  strip s = t ++ [c] -> is_space c = false.
Proof. unfold strip. apply rstrip_last_not_space. Qed.

(** No line holds a newline. *)
Lemma lines_no_NL (s : str) (l : str) :
  In l (split [NL] s) -> ~ In NL l.
Proof.
  revert l; induction s as [|x s IH]; intros l H.
  - rewrite lines_nil in H. destruct H as [<-|[]]. tauto.
  - destruct (N.eq_dec x NL) as [->|Hx].
    + rewrite lines_cons_NL in H. destruct H as [<-|H]; [tauto | now apply IH].
    + destruct (lines_cons_other x s Hx) as (l0 & rest & E1 & E2).
      rewrite E2 in H. rewrite E1 in IH.
      destruct H as [<-|H].
      * intros [Hin|Hin]; [congruence|]. apply (IH l0); [now left | exact Hin].
      * apply IH. now right.
Qed.

End ParserFacts.

(* ================================================================== *)
(** ** The keys of the Copy buttons *)

Section KeyFacts.

Context {X : Externals}.

#[local] Arguments lit : simpl never.

Lemma lit_inj (a b : String.string) : lit a = lit b -> a = b.
Proof.
  unfold lit. intros H.
  rewrite <- (String.string_of_list_ascii_of_string a).
  rewrite <- (String.string_of_list_ascii_of_string b).
  f_equal.
  revert H. generalize (String.list_ascii_of_string a).
  generalize (String.list_ascii_of_string b).
  intros lb la; revert lb; induction la as [|x la IH]; intros [|y lb] H;
    try discriminate; [reflexivity|].
  injection H as Hxy Hl. f_equal; [|now apply IH].
  rewrite <- (ascii_N_embedding x), <- (ascii_N_embedding y). now rewrite Hxy.
Qed.

Lemma of_nat_inj (i j : nat) : of_nat i = of_nat j -> i = j.
Proof.
  unfold of_nat. intros H. apply lit_inj in H.
  apply DecimalNat.Unsigned.to_uint_inj.
  assert (E : Some (Nat.to_uint i) = Some (Nat.to_uint j)).
  { rewrite <- !DecimalString.NilEmpty.usu. now rewrite H. }
  now injection E.
Qed.

Lemma copy_key_inj (i j : nat) :
  lit "copy_follow_up_" ++ of_nat i = lit "copy_follow_up_" ++ of_nat j ->
  i = j.
Proof. intros H. apply app_inv_head in H. now apply of_nat_inj. Qed.

Lemma button_keys_app (a b : list event) :
  button_keys (a ++ b) = button_keys a ++ button_keys b.
Proof.
  induction a as [|e a IH]; [reflexivity|].
  destruct e; simpl; now rewrite ?IH.
Qed.

(** One round draws at most one button, with the key of its index. *)
Lemma show_follow_up_keys (idx : nat) (follow_up : str) (s : state) :
  exists r tl,
    show_follow_up (idx, follow_up) s = (r, log s tl) /\
    (button_keys tl = [] \/
     button_keys tl = [lit "copy_follow_up_" ++ of_nat idx]).
Proof.
  unfold show_follow_up, bind, emit, lift, ret.
  destruct (truthy (strip follow_up));
    [|exists (Ok tt), []; rewrite log_nil; now split; [|left]].
  destruct (st_button (lit "Copy") (lit "copy_follow_up_" ++ of_nat idx)).
  - destruct (pyperclip_copy (strip follow_up)) as [[]|e];
      rewrite !log_log; eexists _, _; split; try reflexivity; now right.
  - rewrite !log_log; eexists _, _; split; try reflexivity; now right.
Qed.

Lemma show_each_keys (l : list str) :
  forall (start : nat) (s : state),
  exists r tl,
    for_each (combine (seq start (length l)) l) show_follow_up s
      = (r, log s tl) /\
    NoDup (button_keys tl) /\
    forall k, In k (button_keys tl) ->
      exists idx, start <= idx /\ k = lit "copy_follow_up_" ++ of_nat idx.
Proof.
  induction l as [|f l IH]; intros start s.
  - exists (Ok tt), []. simpl. unfold ret. rewrite log_nil.
    split; [reflexivity|]. split; [constructor | intros k []].
  - cbn [length seq combine for_each]. unfold bind.
    destruct (show_follow_up_keys start f s) as (r & tl & E & Hk).
    rewrite E. destruct r as [[]|e].
    + destruct (IH (S start) (log s tl)) as (r' & tl' & E' & Hnd & Hidx).
      rewrite E', log_log. exists r', (tl ++ tl').
      split; [reflexivity|]. rewrite button_keys_app.
      destruct Hk as [-> | ->]; simpl.
      * split; [exact Hnd|]. intros k Hin.
        destruct (Hidx k Hin) as (idx & Hle & ->). exists idx. split; [lia | reflexivity].
      * split.
        -- constructor; [|exact Hnd]. intros Hin.
           destruct (Hidx _ Hin) as (idx & Hle & Heq).
           apply copy_key_inj in Heq. lia.
        -- intros k [<-|Hin]; [exists start; split; [lia | reflexivity]|].
           destruct (Hidx k Hin) as (idx & Hle & ->).
           exists idx. split; [lia | reflexivity].
    + exists (Raise e), tl. split; [reflexivity|].
      destruct Hk as [-> | ->]; simpl.
      * split; [constructor | intros k []].
      * split; [repeat constructor; intros [] |].
        intros k [<-|[]]. exists start. split; [lia | reflexivity].
Qed.

End KeyFacts.

(* ================================================================== *)
(** ** The document loop as a fold *)

Section LoopFacts.

Context {X : Externals}.

#[local] Arguments lit : simpl never.

(** One round: the history stays, the index moves by [index_after], and
    the round ends with exactly one report, the one of [report_of]. *)
Lemma process_file_run (sec : secrets) (f : UploadedFile) (s : state) :
  exists calls,
    process_file sec f s
      = (Ok tt,
         State (conversation_history s)
           (index_after sec (vector_store s) f)
           (trace s ++ calls ++ [report_of sec (vector_store s) f])) /\
    filter is_report calls = [] /\
    filter is_chat_call calls = [].
Proof.
  unfold process_file, try_except, bind, lift, index_after, report_of,
    processing_error.
  destruct (read_chunks (openai_api_key sec) f) as [[chunks emb]|e0].
  2:{ exists []. repeat split. }
  cbn [fst snd]. unfold add_to_store, bind, get_vector_store, emit, lift.
  destruct (vector_store s) as [v0|] eqn:V;
    destruct (FAISS_from_texts chunks emb) as [temp|e1].
  - unfold do_merge. destruct (merge_from v0 temp) as [v' [e2|]];
      unfold bind, set_vector_store, lift, ret; cbn [fst snd];
      exists [FAISS_from_texts_call chunks];
      (split; [|split; reflexivity]);
      unfold log; simpl; rewrite <- app_assoc; reflexivity.
  - exists [FAISS_from_texts_call chunks].
    split; [|split; reflexivity].
    unfold log; simpl. rewrite V, <- app_assoc. reflexivity.
  - exists [FAISS_from_texts_call chunks].
    split; [|split; reflexivity].
    unfold set_vector_store, log; simpl. rewrite <- app_assoc. reflexivity.
  - exists [FAISS_from_texts_call chunks].
    split; [|split; reflexivity].
    unfold log; simpl. rewrite V, <- app_assoc. reflexivity.
Qed.

Lemma report_of_is_report (sec : secrets) (v : option VectorStore)
    (f : UploadedFile) :
  is_report (report_of sec v f) = true /\
  is_chat_call (report_of sec v f) = false.
Proof.
  unfold report_of, processing_error.
  destruct (read_chunks (openai_api_key sec) f) as [[chunks emb]|e0];
    [|now split].
  destruct (FAISS_from_texts chunks emb) as [temp|e1]; [|now split].
  destruct v as [v0|]; [|now split].
  destruct (snd (merge_from v0 temp)); now split.
Qed.

(** The loop: the index is the fold of [index_after] over the files, and
    the reports, in order, are those of [reports]. *)
Lemma loop_run (sec : secrets) (files : list UploadedFile) :
  forall s : state,
  exists tl,
    for_each files (process_file sec) s
      = (Ok tt,
         State (conversation_history s)
           (fold_left (index_after sec) files (vector_store s))
           (trace s ++ tl)) /\
    filter is_report tl = reports sec (vector_store s) files /\
    filter is_chat_call tl = [].
Proof.
  induction files as [|f files IH]; intros s.
  - exists []. simpl. unfold ret. rewrite app_nil_r. destruct s.
    split; [reflexivity | split; reflexivity].
  - destruct (process_file_run sec f s) as (calls & E & Hc & Hcc).
    destruct (report_of_is_report sec (vector_store s) f) as [Hrep Hnchat].
    cbn [for_each fold_left reports]. unfold bind. rewrite E.
    destruct (IH (State (conversation_history s)
                    (index_after sec (vector_store s) f)
                    (trace s ++ calls ++ [report_of sec (vector_store s) f])))
      as (tl & E' & Hall & Hnc).
    rewrite E'. cbn [conversation_history vector_store trace] in *.
    exists ((calls ++ [report_of sec (vector_store s) f]) ++ tl). split.
    + now rewrite !app_assoc.
    + split.
      * rewrite !filter_app, Hc, Hall. cbn [app filter].
        rewrite Hrep. reflexivity.
      * rewrite !filter_app, Hcc, Hnc. cbn [app filter].
        rewrite Hnchat. reflexivity.
Qed.

Lemma index_after_failed (sec : secrets) (v : option VectorStore)
    (f : UploadedFile) :
  ingestible sec f = false -> index_after sec v f = v.
Proof.
  unfold ingestible, failure_of, index_after.
  destruct (read_chunks (openai_api_key sec) f) as [[chunks emb]|e];
    [|reflexivity].
  destruct (FAISS_from_texts chunks emb); [discriminate | reflexivity].
Qed.

Lemma index_after_ingested (sec : secrets) (v : option VectorStore)
    (f : UploadedFile) :
  ingestible sec f = true -> index_after sec v f <> None.
Proof.
  unfold ingestible, failure_of, index_after.
  destruct (read_chunks (openai_api_key sec) f) as [[chunks emb]|e];
    [|discriminate].
  destruct (FAISS_from_texts chunks emb); [|discriminate].
  destruct v; discriminate.
Qed.

Lemma index_after_keeps (sec : secrets) (v : option VectorStore)
    (f : UploadedFile) :
  v <> None -> index_after sec v f <> None.
Proof.
  unfold index_after. intros Hv.
  destruct (read_chunks (openai_api_key sec) f) as [[chunks emb]|e];
    [|exact Hv].
  destruct (FAISS_from_texts chunks emb); [|exact Hv].
  destruct v; [discriminate | congruence].
Qed.

Lemma fold_index_filter (sec : secrets) (files : list UploadedFile) :
  forall v,
    fold_left (index_after sec) files v
    = fold_left (index_after sec) (filter (ingestible sec) files) v.
Proof.
  induction files as [|f files IH]; intros v; [reflexivity|].
  cbn [fold_left filter]. destruct (ingestible sec f) eqn:E.
  - cbn [fold_left]. apply IH.
  - rewrite (index_after_failed sec v f E). apply IH.
Qed.

Lemma fold_index_keeps (sec : secrets) (files : list UploadedFile) :
  forall v, v <> None -> fold_left (index_after sec) files v <> None.
Proof.
  induction files as [|f files IH]; intros v Hv; [exact Hv|].
  cbn [fold_left]. apply IH. now apply index_after_keeps.
Qed.

Lemma fold_index_None (sec : secrets) (files : list UploadedFile) :
  fold_left (index_after sec) files None = None <->
  existsb (ingestible sec) files = false.
Proof.
  induction files as [|f files IH]; [split; reflexivity|].
  cbn [fold_left existsb]. destruct (ingestible sec f) eqn:E.
  - split; [|discriminate]. intros H. exfalso.
    apply (fold_index_keeps sec files
             (index_after sec None f)
             (index_after_ingested sec None f E) H).
  - rewrite (index_after_failed sec None f E). exact IH.
Qed.

(** The whole of lines 44-66. *)
Lemma process_documents_run (sec : secrets) (files : list UploadedFile)
    (s : state) :
  exists tl,
    process_documents sec files s
      = (Ok tt,
         State (conversation_history s)
           (fold_left (index_after sec) files None)
           (trace s ++ tl)) /\
    filter is_report tl = reports sec None files /\
    filter is_chat_call tl = [] /\
    (files = [] -> tl = []).
Proof.
  unfold process_documents, bind, set_vector_store.
  destruct files as [|f files].
  - exists []. unfold ret. rewrite app_nil_r.
    split; [reflexivity|]. split; [reflexivity|]. split; reflexivity.
  - unfold emit.
    destruct (loop_run sec (f :: files)
                (log (State (conversation_history s) None (trace s))
                   [st_subheader (lit "Processing Documents...")]))
      as (tl & E & Hall & Hnc).
    rewrite E. cbn [log conversation_history vector_store trace].
    exists (st_subheader (lit "Processing Documents...") :: tl).
    split; [now rewrite <- app_assoc|]. split; [exact Hall|].
    split; [exact Hnc | discriminate].
Qed.

End LoopFacts.

(* ================================================================== *)
(** ** The whole run *)

Section AppFacts.

Context {X : Externals}.

#[local] Arguments lit : simpl never.

Lemma history_of_init (ss : session) :
  history_of (init_session ss) = history_of ss.
Proof. reflexivity. Qed.

Lemma predefined_of_init (ss : session) :
  predefined_of (init_session ss) = predefined_of ss.
Proof. reflexivity. Qed.

(** Whatever the handler does, the history gains at most one entry and
    the index is left alone. *)
Lemma submit_handler_history (cfg : settings) (sec : secrets)
    (question custom_question : str) (s : state) :
  exists r s' new,
    submit_handler cfg sec question custom_question s = (r, s') /\
    vector_store s' = vector_store s /\
    conversation_history s' = conversation_history s ++ new /\
    length new <= 1.
Proof.
  destruct (vector_store s) as [store|] eqn:V.
  - destruct (truthy (resolve_question custom_question question)) eqn:T.
    + rewrite (submit_handler_answers cfg sec question custom_question s
                 store V T).
      destruct (answer_question_shape cfg sec store
                  (resolve_question custom_question question) s)
        as (r & s' & tl & E & Hv & _ & _ & Hh).
      rewrite E. destruct Hh as [Hh|(main & _ & Hh)].
      * exists r, s', []. rewrite app_nil_r. repeat split; auto; congruence.
      * exists r, s', [Entry (resolve_question custom_question question) main].
        repeat split; auto; congruence.
    + rewrite (submit_handler_warns cfg sec question custom_question s).
      * eexists _, _, []. rewrite app_nil_r. repeat split; auto.
      * right. destruct (resolve_question custom_question question);
          [reflexivity | discriminate].
  - rewrite (submit_handler_warns cfg sec question custom_question s
               (or_introl V)).
    eexists _, _, []. rewrite app_nil_r. repeat split; auto.
Qed.

Lemma combine_app_same {A B} (a b : list A) (c d : list B) :
  length a = length c ->
  combine (a ++ b) (c ++ d) = combine a c ++ combine b d.
Proof.
  revert c; induction a as [|x a IH]; intros [|y c] H; try discriminate;
    [reflexivity|].
  simpl. f_equal. apply IH. now injection H.
Qed.

Lemma enumerate_snoc {A} (l : list A) (x : A) :
  enumerate (l ++ [x]) = enumerate l ++ [(length l, x)].
Proof.
  unfold enumerate. rewrite length_app. simpl length.
  rewrite seq_app. simpl seq.
  rewrite combine_app_same by (now rewrite length_seq). reflexivity.
Qed.

End AppFacts.

(* ================================================================== *)
(** ** The response parser (lines 142-161) *)

(** C1, as the code has it.  Extracting the follow-ups never fails.  When
    the marker is absent the main answer is the whole text and the
    follow-up list is empty.  When it is present the main answer is the
    text before its first occurrence, and the follow-up list
    ([follow_up_questions]) is the text from there up to the next
    occurrence of the marker (or the end), stripped as a whole of
    surrounding whitespace and then split on newlines: a list that is never
    empty and whose entries are neither trimmed one by one nor freed of
    blank ones.  Trimming each entry and skipping the blank ones is done
    when the list is put on the page, and what is then shown is that text
    split on newlines, each candidate trimmed of surrounding whitespace and
    blank ones dropped.  On the sample answer: main = "Answer text\n", the
    list and what is shown of it are ["Q1"; "Q2"]. *)
Theorem C1_follow_up_extraction :
  (forall text : str,
     exists main follow_up_questions,
       extract_follow_ups text = Ok (main, follow_up_questions) /\
       match find marker text with
       | None =>
           contains marker text = false /\
           main = text /\ follow_up_questions = []
       | Some i =>
           let after := skipn (i + length marker) text in
           contains marker text = true /\
           main = firstn i text /\
           follow_up_questions = split [NL] (strip (up_to_marker after)) /\
           follow_up_questions <> [] /\
           shown_follow_ups follow_up_questions
             = spec_follow_ups (up_to_marker after)
       end) /\
  extract_follow_ups sample_answer
    = Ok (lit "Answer text" ++ [NL], [lit "Q1"; lit "Q2"]) /\
  shown_follow_ups [lit "Q1"; lit "Q2"] = [lit "Q1"; lit "Q2"].
Proof.
  split; [|split; reflexivity].
  intros text. destruct (find marker text) as [i|] eqn:F.
  - eexists _, _. split; [apply (MarkerFacts.extract_follow_ups_found _ _ F)|].
    cbv zeta. repeat split.
    + unfold contains. now rewrite F.
    + apply PyStrFacts.split_not_nil.
    + apply LineFacts.shown_lines_strip.
  - exists text, []. split; [apply (MarkerFacts.extract_follow_ups_absent _ F)|].
    repeat split. unfold contains. now rewrite F.
Qed.

(** C1 as stated fails in two ways.  When the marker occurs twice the
    follow-ups are not made of all the text after the marker.  And the
    list the parser returns is not trimmed entry by entry nor freed of
    blank entries: it holds "Q1 ", "" and " Q2" where the claim has "Q1"
    and "Q2", and one empty entry after a marker that nothing follows,
    where the claim has no entry. *)
Lemma C1_counterexample :
  (find marker answer_with_two_markers = Some 2 /\
   extract_follow_ups answer_with_two_markers
     = Ok (lit "A" ++ [NL], [lit "Q1"]) /\
   shown_follow_ups [lit "Q1"] = [lit "Q1"] /\
   spec_follow_ups (skipn (2 + length marker) answer_with_two_markers)
     = [lit "Q1"; marker; lit "Q2"] /\
   shown_follow_ups [lit "Q1"]
     <> spec_follow_ups (skipn (2 + length marker) answer_with_two_markers)) /\
  (find marker answer_with_loose_lines = Some 2 /\
   extract_follow_ups answer_with_loose_lines
     = Ok (lit "A ", [lit "Q1 "; []; lit " Q2"]) /\
   spec_follow_ups (skipn (2 + length marker) answer_with_loose_lines)
     = [lit "Q1"; lit "Q2"] /\
   [lit "Q1 "; []; lit " Q2"]
     <> spec_follow_ups (skipn (2 + length marker) answer_with_loose_lines)) /\
  (find marker answer_with_bare_marker = Some 13 /\
   extract_follow_ups answer_with_bare_marker
     = Ok (lit "Answer only. ", [[]]) /\
   spec_follow_ups (skipn (13 + length marker) answer_with_bare_marker) = [] /\
   [[]] <> spec_follow_ups (skipn (13 + length marker) answer_with_bare_marker)).
Proof.
  repeat split; try reflexivity; vm_compute; discriminate.
Qed.

(** C9.  When the marker occurs a second time, what follows the second
    occurrence is dropped: the main answer is the text before the first
    occurrence, the follow-ups come from the text between the two, and the
    result is the one for the text cut before the second occurrence. *)
Theorem C9_text_after_second_marker_dropped (a b c : str) :
  contains marker a = false ->
  contains marker b = false ->
  let text := a ++ marker ++ b ++ marker ++ c in
  find marker text = Some (length a) /\
  find marker (skipn (length a + length marker) text) = Some (length b) /\
  extract_follow_ups text = Ok (a, split [NL] (strip b)) /\
  extract_follow_ups text = extract_follow_ups (a ++ marker ++ b) /\
  shown_follow_ups (split [NL] (strip b)) = spec_follow_ups b.
Proof.
  intros Ha Hb text.
  apply PyStrFacts.contains_find in Ha. apply PyStrFacts.contains_find in Hb.
  assert (F1 : find marker text = Some (length a))
    by (apply MarkerFacts.find_marker_app; exact Ha).
  assert (S1 : skipn (length a + length marker) text = b ++ marker ++ c)
    by apply MarkerFacts.skipn_past_marker.
  assert (F2 : find marker (b ++ marker ++ c) = Some (length b))
    by (apply MarkerFacts.find_marker_app; exact Hb).
  assert (E : extract_follow_ups text = Ok (a, split [NL] (strip b))).
  { rewrite (MarkerFacts.extract_follow_ups_found text _ F1), S1.
    unfold up_to_marker. rewrite F2. unfold text.
    rewrite !MarkerFacts.firstn_exact. reflexivity. }
  repeat split.
  - exact F1.
  - rewrite S1. exact F2.
  - exact E.
  - rewrite E. symmetry.
    pose proof (MarkerFacts.find_marker_app a b Ha) as F1'.
    rewrite (MarkerFacts.extract_follow_ups_found _ _ F1').
    rewrite MarkerFacts.skipn_past_marker.
    unfold up_to_marker. rewrite Hb.
    rewrite MarkerFacts.firstn_exact. reflexivity.
  - apply LineFacts.shown_lines_strip.
Qed.

Lemma C9_witness :
  contains marker (lit "A" ++ [NL]) = false /\
  contains marker ([NL] ++ lit "Q1" ++ [NL]) = false /\
  find marker answer_with_two_markers = Some 2 /\
  extract_follow_ups answer_with_two_markers
    = Ok (lit "A" ++ [NL], [lit "Q1"]) /\
  extract_follow_ups answer_with_two_markers
    = extract_follow_ups (lit "A" ++ [NL] ++ marker ++ [NL] ++ lit "Q1" ++ [NL]).
Proof.
  split; [reflexivity|]. split; [reflexivity|].
  destruct (C9_text_after_second_marker_dropped
              (lit "A" ++ [NL]) ([NL] ++ lit "Q1" ++ [NL]) ([NL] ++ lit "Q2")
              eq_refl eq_refl) as (F & _ & E1 & E2 & _).
  split; [exact F|]. split; [exact E1 | exact E2].
Defined.

(* ================================================================== *)
(** ** The context of the prompt (lines 124-128) *)

Lemma join_space_spec (texts : list str) :
  join [SP] texts = spec_context texts.
Proof.
  destruct texts as [|t rest]; [reflexivity|].
  revert t; induction rest as [|u rest IH]; intros t.
  - simpl. now rewrite app_nil_r.
  - change (join [SP] (t :: u :: rest)) with (t ++ [SP] ++ join [SP] (u :: rest)).
    rewrite IH. reflexivity.
Qed.

(** C2.  The context is the chunk texts joined by single spaces in the
    order the search returned them; a context longer than
    max-context-length is cut to exactly its first max-context-length
    characters, and a context that is not longer is left as it is. *)
Theorem C2_context_assembly
    (relevant_chunks : list Document) (max_context_length : Z) :
  (0 <= max_context_length)%Z ->
  let joined := join_chunks relevant_chunks in
  let context := limit_context joined max_context_length in
  joined = spec_context (map page_content relevant_chunks) /\
  (if (Z.of_nat (length joined) >? max_context_length)%Z
   then context = firstn (Z.to_nat max_context_length) joined /\
        Z.of_nat (length context) = max_context_length
   else context = joined).
Proof.
  intros Hmax joined context. split; [apply join_space_spec|].
  unfold context, limit_context.
  destruct (Z.of_nat (length joined) >? max_context_length)%Z eqn:E;
    [|reflexivity].
  unfold slice_to. destruct (0 <=? max_context_length)%Z eqn:E0; [|lia].
  split; [reflexivity|].
  rewrite length_firstn. lia.
Qed.

Lemma C2_witness :
  (0 <= 5)%Z /\
  limit_context (join_chunks [Doc (lit "ab"); Doc (lit "cd"); Doc (lit "ef")]) 5
    = lit "ab cd" /\
  limit_context (join_chunks [Doc (lit "ab"); Doc (lit "cd")]) 5 = lit "ab cd".
Proof.
  split; [lia|].
  pose proof (C2_context_assembly
                [Doc (lit "ab"); Doc (lit "cd"); Doc (lit "ef")] 5
                ltac:(lia)) as H3.
  pose proof (C2_context_assembly [Doc (lit "ab"); Doc (lit "cd")] 5
                ltac:(lia)) as H2.
  cbv zeta in H3, H2. destruct H3 as [_ H3]. destruct H2 as [_ H2].
  split.
  - change (Z.of_nat
              (length (join_chunks [Doc (lit "ab"); Doc (lit "cd"); Doc (lit "ef")]))
            >? 5)%Z with true in H3.
    destruct H3 as [H3 _]. rewrite H3. reflexivity.
  - change (Z.of_nat (length (join_chunks [Doc (lit "ab"); Doc (lit "cd")])) >? 5)%Z
      with false in H2.
    exact H2.
Defined.

(* ================================================================== *)
(** ** The Submit handler (lines 119-169) *)

Section HandlerClaims.

Context {X : Externals}.

(** C3.  When the call to the chat model raises, the handler catches the
    exception and shows it with its message; the call is made once, no
    answer is shown or recorded, and the conversation history is what it
    was. *)
Theorem C3_answer_service_failure (cfg : settings) (sec : secrets)
    (question custom_question : str) (s : state) (store : VectorStore)
    (docs : list Document) (llm : ChatModel) (e : exn) :
  let q := resolve_question custom_question question in
  let prompt :=
    build_prompt (limit_context (join_chunks docs) (max_context_length cfg)) q in
  vector_store s = Some store ->
  truthy q = true ->
  similarity_search store q 3 = Ok docs ->
  ChatGroq (selected_model cfg) (groq_api_key sec) = Ok llm ->
  invoke llm [Message (lit "user") prompt] = Raise e ->
  submit_handler cfg sec question custom_question s
    = (Ok tt,
       log s [similarity_search_call q 3;
              ChatGroq_call (selected_model cfg) (groq_api_key sec);
              invoke_call [Message (lit "user") prompt];
              st_error (lit "Error generating response: " ++ exn_str e)]) /\
  conversation_history
    (exec (submit_handler cfg sec question custom_question) s)
    = conversation_history s.
Proof.
  intros q prompt Hs Hq Hd Hc Hi.
  assert (E : submit_handler cfg sec question custom_question s
    = (Ok tt,
       log s [similarity_search_call q 3;
              ChatGroq_call (selected_model cfg) (groq_api_key sec);
              invoke_call [Message (lit "user") prompt];
              st_error (lit "Error generating response: " ++ exn_str e)])).
  { rewrite (submit_handler_answers cfg sec question custom_question s store Hs Hq).
    fold q. rewrite (answer_question_found cfg sec store q s docs Hd).
    unfold try_except. fold prompt.
    rewrite (generate_response_invoke_fails cfg sec prompt q _ llm e Hc Hi).
    unfold emit. rewrite !log_log. reflexivity. }
  split; [exact E|]. unfold exec. rewrite E. reflexivity.
Qed.

(** C5, on the code: with documents indexed and no question at all, the
    handler makes no call and leaves the history alone, and the warning it
    shows is the one that asks for a document. *)
Theorem C5_empty_question_gets_document_warning (cfg : settings)
    (sec : secrets) (history : list entry) (store : VectorStore)
    (tr : list event) :
  submit_handler cfg sec [] [] (State history (Some store) tr)
    = (Ok tt,
       State history (Some store)
         (tr ++ [st_warning
                   (lit "Please upload and process a document first.")])).
Proof. reflexivity. Qed.

(** C6.  Two runs that differ only in the retrieve mode do the same: the
    same search, the same chunks, the same everything. *)
Theorem C6_retrieve_mode_no_effect (model : str) (temp : Q) (max : Z)
    (mode1 mode2 : retrieve_mode_t) (sec : secrets) (w : widgets)
    (question custom_question : str) (s : state) :
  submit_handler (Settings model temp max mode1) sec question custom_question s
    = submit_handler (Settings model temp max mode2) sec question
        custom_question s /\
  script (Settings model temp max mode1) sec w s
    = script (Settings model temp max mode2) sec w s.
Proof. split; reflexivity. Qed.

(** C7, on the code: the temperature of the sidebar reaches neither the
    chat client nor the request; two runs that differ only in it do the
    same. *)
Theorem C7_temperature_not_forwarded (model : str) (temp1 temp2 : Q)
    (max : Z) (mode : retrieve_mode_t) (sec : secrets) (w : widgets)
    (question custom_question : str) (s : state) :
  submit_handler (Settings model temp1 max mode) sec question custom_question s
    = submit_handler (Settings model temp2 max mode) sec question
        custom_question s /\
  script (Settings model temp1 max mode) sec w s
    = script (Settings model temp2 max mode) sec w s.
Proof. split; reflexivity. Qed.

(** C8.  The question of a submission is the custom text when there is
    one, and the predefined selection only when the custom text is empty.
    The handler does everything with that question [q], whatever the
    services answer: the search is made with [q]; the prompt sent is
    "Context:\n" + context + "\n\nQuestion: " + [q] + "\n\n" + the
    instruction; and when the response has been shown and its follow-ups
    drawn, the entry recorded is ([q], main response).  When the search
    raises nothing else is done; when the client or the call raises the
    error is shown and nothing is recorded.  With no Copy button pressed
    the follow-ups are drawn without an exception, so the entry is
    recorded. *)
Theorem C8_custom_question_precedence (cfg : settings) (sec : secrets)
    (question custom_question : str) (s : state) (store : VectorStore) :
  let q := resolve_question custom_question question in
  vector_store s = Some store ->
  truthy q = true ->
  match custom_question with
  | [] => q = question
  | _ :: _ => q = custom_question
  end /\
  match similarity_search store q 3 with
  | Raise e =>
      submit_handler cfg sec question custom_question s
        = (Raise e, log s [similarity_search_call q 3])
  | Ok docs =>
      let prompt :=
        lit "Context:" ++ [NL]
          ++ limit_context (join_chunks docs) (max_context_length cfg)
          ++ [NL; NL] ++ lit "Question: " ++ q ++ [NL; NL] ++ instruction in
      let started :=
        [similarity_search_call q 3;
         ChatGroq_call (selected_model cfg) (groq_api_key sec)] in
      match ChatGroq (selected_model cfg) (groq_api_key sec) with
      | Raise e =>
          submit_handler cfg sec question custom_question s
            = (Ok tt,
               log s (started
                        ++ [st_error (lit "Error generating response: "
                                        ++ exn_str e)]))
      | Ok llm =>
          let sent := started ++ [invoke_call [Message (lit "user") prompt]] in
          match invoke llm [Message (lit "user") prompt] with
          | Raise e =>
              submit_handler cfg sec question custom_question s
                = (Ok tt,
                   log s (sent
                            ++ [st_error (lit "Error generating response: "
                                            ++ exn_str e)]))
          | Ok text =>
              exists main fq r tl,
                let shown :=
                  sent ++ [st_markdown
                             (lit "**Response:**" ++ [NL; NL] ++ main)] in
                extract_follow_ups text = Ok (main, fq) /\
                show_follow_ups fq (log s shown) = (r, log s (shown ++ tl)) /\
                forallb page_event tl = true /\
                ((forall label key, st_button label key = false) ->
                 r = Ok tt /\ tl = follow_up_page fq) /\
                submit_handler cfg sec question custom_question s
                  = match r with
                    | Ok _ =>
                        (Ok tt,
                         State (conversation_history s ++ [Entry q main])
                           (vector_store s) (trace s ++ shown ++ tl))
                    | Raise e =>
                        (Ok tt,
                         log s (shown ++ tl
                                  ++ [st_error
                                        (lit "Error generating response: "
                                           ++ exn_str e)]))
                    end
          end
      end
  end.
Proof.
  intros q Hs Hq. split; [destruct custom_question; reflexivity|].
  rewrite (submit_handler_answers cfg sec question custom_question s store Hs Hq).
  fold q.
  destruct (similarity_search store q 3) as [docs|e] eqn:Hd.
  2:{ apply (answer_question_search_fails cfg sec store q s e Hd). }
  rewrite (answer_question_found cfg sec store q s docs Hd).
  unfold try_except.
  change (build_prompt
            (limit_context (join_chunks docs) (max_context_length cfg)) q)
    with (lit "Context:" ++ [NL]
            ++ limit_context (join_chunks docs) (max_context_length cfg)
            ++ [NL; NL] ++ lit "Question: " ++ q ++ [NL; NL] ++ instruction).
  cbv zeta.
  set (prompt := lit "Context:" ++ [NL]
            ++ limit_context (join_chunks docs) (max_context_length cfg)
            ++ [NL; NL] ++ lit "Question: " ++ q ++ [NL; NL] ++ instruction).
  destruct (ChatGroq (selected_model cfg) (groq_api_key sec))
    as [llm|e] eqn:Hc.
  2:{ rewrite (generate_response_client_fails cfg sec prompt q _ e Hc).
      unfold emit. rewrite !log_log. reflexivity. }
  destruct (invoke llm [Message (lit "user") prompt]) as [text|e] eqn:Hi.
  2:{ rewrite (generate_response_invoke_fails cfg sec prompt q _ llm e Hc Hi).
      unfold emit. rewrite !log_log. reflexivity. }
  destruct (extract_follow_ups_total text) as (main & fq & He).
  rewrite (generate_response_answered cfg sec prompt q _ llm text main fq
             Hc Hi He).
  unfold bind. rewrite log_log.
  match goal with
  | |- context [show_follow_ups fq ?st] =>
      destruct (show_follow_ups_page fq st) as (r & tl & Ep & Hp);
      pose proof (fun Hno => show_follow_ups_unpressed Hno fq st) as Eu
  end.
  exists main, fq, r, tl. cbv zeta.
  split; [exact He|]. split.
  { rewrite log_log in Ep. exact Ep. }
  split; [exact Hp|]. split.
  - intros Hno. rewrite (Eu Hno) in Ep.
    injection Ep as Er Et. split; [now symmetry|].
    symmetry. now apply app_inv_head in Et.
  - rewrite Ep. destruct r as [[]|e].
    + unfold append_history, log. cbn [conversation_history vector_store trace].
      rewrite <- !app_assoc. reflexivity.
    + unfold emit. rewrite !log_log, <- !app_assoc. reflexivity.
Qed.

(** C10.  One guard, one message: without an index, and with an index but
    no question, the handler shows the same warning, "Please upload and
    process a document first."; it makes no call and leaves the history
    alone. *)
Theorem C10_shared_warning (cfg : settings) (sec : secrets)
    (question custom_question : str) (s : state) :
  vector_store s = None \/ resolve_question custom_question question = [] ->
  submit_handler cfg sec question custom_question s
    = (Ok tt,
       log s [st_warning (lit "Please upload and process a document first.")])
  /\ conversation_history
       (exec (submit_handler cfg sec question custom_question) s)
     = conversation_history s.
Proof.
  intros H.
  pose proof (submit_handler_warns cfg sec question custom_question s H) as E.
  split; [exact E|]. unfold exec. rewrite E. reflexivity.
Qed.

End HandlerClaims.

(* ================================================================== *)
(** ** The document loop (lines 45-66) *)

Section ProcessClaims.

Context {X : Externals}.

(** C4.  When extraction or embedding raises for a file of the batch, the
    loop shows one error, for that file, leaves the vector store built from
    the files before it as it was, and goes on with the files after it; no
    exception leaves the loop. *)
Theorem C4_failed_file_isolated (sec : secrets)
    (before after : list UploadedFile) (f : UploadedFile)
    (calls : list event) (e : exn) (s : state) :
  failure_of sec f = Some (calls, e) ->
  let s1 := exec (for_each before (process_file sec)) s in
  let s2 := log s1 (calls ++ [processing_error f e]) in
  process_file sec f s1 = (Ok tt, s2) /\
  vector_store s2 = vector_store s1 /\
  for_each (before ++ f :: after) (process_file sec) s
    = for_each after (process_file sec) s2 /\
  outcome (for_each (before ++ f :: after) (process_file sec)) s = Ok tt.
Proof.
  intros Hf s1 s2.
  pose proof (process_file_fails sec f calls e s1 Hf) as E.
  split; [exact E|]. split; [reflexivity|]. split.
  - rewrite for_each_app
      by (apply for_each_caught; intros; apply process_file_caught).
    fold s1. simpl. unfold bind. rewrite E. reflexivity.
  - apply for_each_caught; intros; apply process_file_caught.
Qed.

End ProcessClaims.

(* ================================================================== *)
(** ** The claims at work in the small world *)

(** Two PDFs, the second unreadable: the index holds the chunk of the
    first, and the failure of the second is shown. *)
Lemma C4_witness :
  failure_of (X := Toy.answering) Toy.sec Toy.broken
    = Some ([], Toy.eof_error) /\
  vector_store
    (log (exec (for_each (X := Toy.answering) [Toy.report]
                  (process_file (X := Toy.answering) Toy.sec))
            (Toy.fresh Toy.answering))
       ([] ++ [processing_error (X := Toy.answering) Toy.broken Toy.eof_error]))
    = Some [lit "Revenue grew."] /\
  process_documents (X := Toy.answering) Toy.sec [Toy.report; Toy.broken]
    (Toy.fresh Toy.answering)
    = (Ok tt,
       State (X := Toy.answering) [] (Some [lit "Revenue grew."])
         [st_subheader (lit "Processing Documents...");
          FAISS_from_texts_call [lit "Revenue grew."];
          st_success (lit "Processed: report.pdf");
          st_error (lit "Error processing broken.pdf: EOF marker not found")]).
Proof.
  split; [reflexivity|].
  destruct (C4_failed_file_isolated (X := Toy.answering) Toy.sec
              [Toy.report] [] Toy.broken [] Toy.eof_error
              (Toy.fresh Toy.answering) eq_refl) as (_ & Ev & _ & _).
  split; [|reflexivity].
  exact (eq_trans Ev eq_refl).
Defined.

(** A file in the middle whose text gives no chunk: embedding raises, the
    files around it are indexed. *)
Example batch_with_blank_file :
  process_documents (X := Toy.answering) Toy.sec
    [Toy.report; Toy.blank; Toy.annex] (Toy.fresh Toy.answering)
    = (Ok tt,
       State (X := Toy.answering) [] (Some [lit "Revenue grew."; lit "Costs fell."])
         [st_subheader (lit "Processing Documents...");
          FAISS_from_texts_call [lit "Revenue grew."];
          st_success (lit "Processed: report.pdf");
          FAISS_from_texts_call [];
          st_error (lit "Error processing blank.pdf: list index out of range");
          FAISS_from_texts_call [lit "Costs fell."];
          st_success (lit "Processed: annex.pdf")]).
Proof. reflexivity. Qed.

Lemma C3_witness :
  submit_handler (X := Toy.failing) Toy.cfg Toy.sec Toy.predefined Toy.custom
    (Toy.indexed Toy.failing [lit "Revenue grew."])
    = (Ok tt,
       State (X := Toy.failing) [] (Some [lit "Revenue grew."])
         [similarity_search_call Toy.custom 3;
          ChatGroq_call (lit "llama-3.3-70b-versatile") (lit "gsk");
          invoke_call
            [Message (lit "user")
               (build_prompt (lit "Revenue grew.") Toy.custom)];
          st_error (lit "Error generating response: 429 rate limit")]).
Proof.
  apply (C3_answer_service_failure (X := Toy.failing) Toy.cfg Toy.sec
           Toy.predefined Toy.custom
           (Toy.indexed Toy.failing [lit "Revenue grew."])
           [lit "Revenue grew."] [Doc (lit "Revenue grew.")]
           (lit "llama-3.3-70b-versatile") Toy.rate_limit
           eq_refl eq_refl eq_refl eq_refl eq_refl).
Defined.

Lemma C8_witness :
  resolve_question Toy.custom Toy.predefined = Toy.custom /\
  submit_handler (X := Toy.answering) Toy.cfg Toy.sec Toy.predefined
    Toy.custom (Toy.indexed Toy.answering [lit "Revenue grew."])
  = (Ok tt,
     State (X := Toy.answering)
       [Entry Toy.custom (lit "Answer text" ++ [NL])]
       (Some [lit "Revenue grew."])
       ([similarity_search_call Toy.custom 3;
         ChatGroq_call (lit "llama-3.3-70b-versatile") (lit "gsk");
         invoke_call
           [Message (lit "user")
              (lit "Context:" ++ [NL] ++ lit "Revenue grew." ++ [NL; NL]
                 ++ lit "Question: " ++ Toy.custom ++ [NL; NL]
                 ++ instruction)];
         st_markdown (lit "**Response:**" ++ [NL; NL] ++ lit "Answer text" ++ [NL])]
        ++ follow_up_page [lit "Q1"; lit "Q2"])).
Proof.
  destruct (C8_custom_question_precedence (X := Toy.answering) Toy.cfg
              Toy.sec Toy.predefined Toy.custom
              (Toy.indexed Toy.answering [lit "Revenue grew."])
              [lit "Revenue grew."] eq_refl eq_refl) as [Hq H].
  split; [exact Hq|].
  vm_compute in H.
  destruct H as (main & fq & r & tl & He & _ & _ & Hreal & Hh).
  injection He as <- <-.
  destruct (Hreal (fun _ _ => eq_refl)) as [-> ->].
  exact Hh.
Defined.

(** The whole of a submission that succeeds: the custom question is
    searched, sent and recorded; the predefined one appears nowhere. *)
Example submission_with_both_questions :
  submit_handler (X := Toy.answering) Toy.cfg Toy.sec Toy.predefined
    Toy.custom (Toy.indexed Toy.answering [lit "Revenue grew."])
    = (Ok tt,
       State (X := Toy.answering) [Entry Toy.custom (lit "Answer text" ++ [NL])]
         (Some [lit "Revenue grew."])
         [similarity_search_call Toy.custom 3;
          ChatGroq_call (lit "llama-3.3-70b-versatile") (lit "gsk");
          invoke_call
            [Message (lit "user")
               (build_prompt (lit "Revenue grew.") Toy.custom)];
          st_markdown (lit "**Response:**" ++ [NL; NL] ++ lit "Answer text" ++ [NL]);
          st_markdown (lit "**Follow-up Questions:**");
          st_markdown (lit "- Q1");
          st_button_shown (lit "Copy") (lit "copy_follow_up_0");
          st_markdown (lit "- Q2");
          st_button_shown (lit "Copy") (lit "copy_follow_up_1")]).
Proof. reflexivity. Qed.

Lemma C10_witness :
  submit_handler (X := Toy.answering) Toy.cfg Toy.sec Toy.predefined Toy.custom
    (Toy.fresh Toy.answering)
    = (Ok tt, State (X := Toy.answering) [] None [no_document_warning]) /\
  submit_handler (X := Toy.answering) Toy.cfg Toy.sec [] []
    (Toy.indexed Toy.answering [lit "Revenue grew."])
    = (Ok tt, State (X := Toy.answering) [] (Some [lit "Revenue grew."]) [no_document_warning]).
Proof.
  split.
  - apply (C10_shared_warning (X := Toy.answering) Toy.cfg Toy.sec
             Toy.predefined Toy.custom (Toy.fresh Toy.answering)
             (or_introl eq_refl)).
  - apply (C10_shared_warning (X := Toy.answering) Toy.cfg Toy.sec [] []
             (Toy.indexed Toy.answering [lit "Revenue grew."])
             (or_intror eq_refl)).
Defined.

(** A document is uploaded and processed, nothing is asked, Submit is
    pressed: the page says the document was processed and then asks for a
    document. *)
Example empty_question_after_upload :
  script (X := Toy.answering) Toy.cfg Toy.sec
    (Widgets (X := Toy.answering) [Toy.report] [] [] [] true)
    (Toy.fresh Toy.answering)
  = (Ok tt,
     State (X := Toy.answering) [] (Some [lit "Revenue grew."])
       [st_subheader (lit "Processing Documents...");
        FAISS_from_texts_call [lit "Revenue grew."];
        st_success (lit "Processed: report.pdf");
        st_warning (lit "Please upload and process a document first.")]).
Proof. reflexivity. Qed.

(** With the temperature at 1 instead of 0.3 the chat client is built and
    called with the same arguments. *)
Example temperature_ignored :
  submit_handler (X := Toy.answering)
    (Settings (lit "llama-3.3-70b-versatile") 1 3000 Text_Hybrid) Toy.sec
    Toy.predefined Toy.custom (Toy.indexed Toy.answering [lit "Revenue grew."])
  = (Ok tt,
     State (X := Toy.answering)
       [Entry Toy.custom (lit "Answer text" ++ [NL])]
       (Some [lit "Revenue grew."])
       [similarity_search_call Toy.custom 3;
        ChatGroq_call (lit "llama-3.3-70b-versatile") (lit "gsk");
        invoke_call
          [Message (lit "user")
             (build_prompt (lit "Revenue grew.") Toy.custom)];
        st_markdown (lit "**Response:**" ++ [NL; NL] ++ lit "Answer text" ++ [NL]);
        st_markdown (lit "**Follow-up Questions:**");
        st_markdown (lit "- Q1");
        st_button_shown (lit "Copy") (lit "copy_follow_up_0");
        st_markdown (lit "- Q2");
        st_button_shown (lit "Copy") (lit "copy_follow_up_1")]).
Proof. reflexivity. Qed.

(** A Copy button pressed during the submission: the text goes to the
    clipboard. *)
Example submission_with_copy_pressed :
  trace
    (exec
       (submit_handler (X := Toy.world (Ok sample_answer) true) Toy.cfg
          Toy.sec [] Toy.custom)
       (Toy.indexed (Toy.world (Ok sample_answer) true) [lit "Revenue grew."]))
  = [similarity_search_call Toy.custom 3;
     ChatGroq_call (lit "llama-3.3-70b-versatile") (lit "gsk");
     invoke_call
       [Message (lit "user") (build_prompt (lit "Revenue grew.") Toy.custom)];
     st_markdown (lit "**Response:**" ++ [NL; NL] ++ lit "Answer text" ++ [NL]);
     st_markdown (lit "**Follow-up Questions:**");
     st_markdown (lit "- Q1");
     st_button_shown (lit "Copy") (lit "copy_follow_up_0");
     pyperclip_copy_call (lit "Q1");
     st_success (lit "Copied to clipboard!");
     st_markdown (lit "- Q2");
     st_button_shown (lit "Copy") (lit "copy_follow_up_1");
     pyperclip_copy_call (lit "Q2");
     st_success (lit "Copied to clipboard!")].
Proof. reflexivity. Qed.

(* ================================================================== *)
(** ** Further properties: the response parser *)

(** X1.  When the marker is in the answer, the main response is the part
    of the answer in front of a marker and holds no marker itself. *)
Theorem main_response_has_no_marker (text main : str) (fq : list str) :
  extract_follow_ups text = Ok (main, fq) ->
  contains marker text = true ->
  contains marker main = false /\
  exists rest, text = main ++ marker ++ rest.
Proof.
  intros E Hc. unfold contains in Hc.
  destruct (find marker text) as [i|] eqn:F; [|discriminate].
  rewrite (MarkerFacts.extract_follow_ups_found text i F) in E.
  injection E as <- _. split.
  - apply PyStrFacts.contains_find.
    apply ParserFacts.find_firstn_None; [apply MarkerFacts.marker_sep | exact F].
  - exists (skipn (i + length marker) text).
    apply (PyStrFacts.find_Some_occurs marker text i F).
Qed.

Lemma main_response_has_no_marker_witness :
  contains marker sample_answer = true /\
  contains marker (lit "Answer text" ++ [NL]) = false.
Proof.
  split; [reflexivity|].
  apply (main_response_has_no_marker sample_answer
           (lit "Answer text" ++ [NL]) [lit "Q1"; lit "Q2"]
           eq_refl eq_refl).
Defined.

(** X2.  Every follow-up put on the page is a single line that is not
    empty and neither begins nor ends with whitespace. *)
Theorem shown_follow_ups_are_clean (text main : str) (fq : list str)
    (q : str) :
  extract_follow_ups text = Ok (main, fq) ->
  In q (shown_follow_ups fq) ->
  ~ In NL q /\
  (exists c t, q = c :: t /\ is_space c = false) /\
  (exists t c, q = t ++ [c] /\ is_space c = false).
Proof.
  intros E Hq.
  assert (Hfq : forall l, In l fq -> ~ In NL l).
  { destruct (find marker text) as [i|] eqn:F.
    - rewrite (MarkerFacts.extract_follow_ups_found text i F) in E.
      injection E as _ <-. intros l. apply ParserFacts.lines_no_NL.
    - rewrite (MarkerFacts.extract_follow_ups_absent text F) in E.
      injection E as _ <-. intros l []. }
  unfold shown_follow_ups in Hq.
  apply filter_In in Hq as [Hin Ht].
  apply in_map_iff in Hin as (l & <- & Hl).
  split; [|split].
  - intros Hn. apply (Hfq l Hl). now apply ParserFacts.strip_incl.
  - destruct (strip l) as [|c t] eqn:S; [discriminate|].
    exists c, t. split; [reflexivity|].
    apply (ParserFacts.strip_head_not_space l c t S).
  - destruct (strip l) as [|c t] eqn:S; [discriminate|].
    destruct (exists_last (l := c :: t)) as (t' & c' & E'); [discriminate|].
    exists t', c'. split; [exact E'|].
    apply (ParserFacts.strip_last_not_space l c' t'). congruence.
Qed.

Lemma shown_follow_ups_are_clean_witness :
  In (lit "Q1") (shown_follow_ups [lit "Q1"; lit "Q2"]) /\ ~ In NL (lit "Q1").
Proof.
  split; [now left|].
  apply (shown_follow_ups_are_clean sample_answer
           (lit "Answer text" ++ [NL]) [lit "Q1"; lit "Q2"] (lit "Q1")
           eq_refl (or_introl eq_refl)).
Defined.

(* ================================================================== *)
(** ** Further properties: the document loop *)

Section ProcessExtras.

Context {X : Externals}.

(** X3.  Processing never raises and never touches the conversation
    history, and the index it leaves is built from the files of this run
    alone, starting from no index: whatever was indexed before is gone. *)
Theorem index_rebuilt_each_run (sec : secrets)
    (files : list UploadedFile) (s : state) :
  outcome (process_documents sec files) s = Ok tt /\
  conversation_history (exec (process_documents sec files) s)
    = conversation_history s /\
  vector_store (exec (process_documents sec files) s)
    = fold_left (index_after sec) files None.
Proof.
  destruct (process_documents_run sec files s) as (tl & E & _).
  unfold outcome, exec. rewrite E. repeat split.
Qed.

(** X4.  Files that fail leave no mark on the index: the index after a
    batch is the index after the batch without its failing files. *)
Theorem failed_files_leave_no_mark (sec : secrets)
    (files : list UploadedFile) (s s' : state) :
  vector_store (exec (process_documents sec files) s)
  = vector_store
      (exec (process_documents sec (filter (ingestible sec) files)) s').
Proof.
  destruct (process_documents_run sec files s) as (tl & E & _).
  destruct (process_documents_run sec (filter (ingestible sec) files) s')
    as (tl' & E' & _).
  unfold exec. rewrite E, E'. cbn [snd vector_store].
  apply fold_index_filter.
Qed.

(** X5.  After processing there is an index exactly when at least one
    file of the batch was read and embedded without an exception. *)
Theorem index_exists_iff_some_file_ingested (sec : secrets)
    (files : list UploadedFile) (s : state) :
  vector_store (exec (process_documents sec files) s) = None <->
  existsb (ingestible sec) files = false.
Proof.
  destruct (process_documents_run sec files s) as (tl & E & _).
  unfold exec. rewrite E. cbn [snd vector_store].
  apply fold_index_None.
Qed.

Lemma report_of_failed (sec : secrets) (v : option VectorStore)
    (f : UploadedFile) (calls : list event) (e : exn) :
  failure_of sec f = Some (calls, e) ->
  report_of sec v f = processing_error f e.
Proof.
  unfold failure_of, report_of.
  destruct (read_chunks (openai_api_key sec) f) as [[chunks emb]|e0].
  - destruct (FAISS_from_texts chunks emb) as [temp|e1]; [discriminate|].
    now intros [= _ <-].
  - now intros [= _ <-].
Qed.

Lemma reports_failures_shown (sec : secrets) (files : list UploadedFile) :
  forall v,
    Forall2
      (fun f rep =>
         match failure_of sec f with
         | Some (_, e) => rep = processing_error f e
         | None => True
         end)
      files (reports sec v files).
Proof.
  induction files as [|f files IH]; intros v; [constructor|].
  cbn [reports]. constructor; [|apply IH].
  destruct (failure_of sec f) as [[calls e]|] eqn:F; [|exact I].
  apply (report_of_failed sec v f calls e F).
Qed.

Lemma reports_length (sec : secrets) (files : list UploadedFile) :
  forall v, length (reports sec v files) = length files.
Proof.
  induction files as [|f files IH]; intros v; [reflexivity|].
  cbn [reports length]. now rewrite IH.
Qed.

(** X6.  The reports of a batch (the [st.success] and [st.error] of the
    loop) are exactly one per file, in upload order: for each file the
    error of line 66 with the exception that ended its round, or the
    success of line 64 when nothing raised.  In particular a file whose
    extraction or embedding raises [e] is reported as
    "Error processing name: e", never as processed. *)
Theorem one_report_per_file (sec : secrets) (files : list UploadedFile)
    (s : state) :
  exists tl,
    trace (exec (process_documents sec files) s) = trace s ++ tl /\
    filter is_report tl = reports sec None files /\
    length (filter is_report tl) = length files /\
    Forall2
      (fun f rep =>
         match failure_of sec f with
         | Some (_, e) => rep = processing_error f e
         | None => True
         end)
      files (filter is_report tl).
Proof.
  destruct (process_documents_run sec files s) as (tl & E & Hall & _).
  exists tl. unfold exec. rewrite E, Hall. split; [reflexivity|].
  split; [reflexivity|]. split.
  - apply reports_length.
  - apply reports_failures_shown.
Qed.

Lemma page_texts_raises (pages : list Page) (p : Page) (e : exn) :
  In p pages -> extract_text p = Raise e ->
  exists e', page_texts pages = Raise e'.
Proof.
  induction pages as [|p0 pages IH]; [intros []|].
  intros [<-|Hin] He; simpl.
  - rewrite He. now exists e.
  - destruct (extract_text p0) as [t|e0]; [|now exists e0].
    destruct (IH Hin He) as [e' ->]. now exists e'.
Qed.

(** X7.  One page whose text extraction raises loses the whole file: the
    file is reported as failed before any embedding call and adds nothing
    to the index. *)
Theorem one_bad_page_fails_the_file (sec : secrets) (f : UploadedFile)
    (pages : list Page) (p : Page) (e : exn) (s : state) :
  PdfReader f = Ok pages ->
  In p pages ->
  extract_text p = Raise e ->
  exists e',
    process_file sec f s = (Ok tt, log s [processing_error f e']).
Proof.
  intros Hr Hin He.
  destruct (page_texts_raises pages p e Hin He) as [e' Hp].
  exists e'.
  assert (F : failure_of sec f = Some ([], e')).
  { unfold failure_of, read_chunks. now rewrite Hr, Hp. }
  apply (process_file_fails sec f [] e' s F).
Qed.

End ProcessExtras.

Lemma failed_files_leave_no_mark_example :
  vector_store
    (exec (process_documents (X := Toy.answering) Toy.sec
             [Toy.broken; Toy.report; Toy.blank; Toy.annex; Toy.torn])
       (Toy.fresh Toy.answering))
  = Some [lit "Revenue grew."; lit "Costs fell."].
Proof. reflexivity. Qed.

Lemma one_bad_page_fails_the_file_witness :
  exists e',
    process_file (X := Toy.answering) Toy.sec Toy.torn
      (Toy.indexed Toy.answering [lit "Revenue grew."])
    = (Ok tt,
       log (Toy.indexed Toy.answering [lit "Revenue grew."])
         [processing_error (X := Toy.answering) Toy.torn e']).
Proof.
  apply (one_bad_page_fails_the_file (X := Toy.answering) Toy.sec Toy.torn
           [Ok (Some (lit "Page one.")); Raise (Exception (lit "bad xref"))]
           (Raise (Exception (lit "bad xref"))) (Exception (lit "bad xref"))
           (Toy.indexed Toy.answering [lit "Revenue grew."])
           eq_refl (or_intror (or_introl eq_refl)) eq_refl).
Defined.

(** The reports of a batch of five files, three of which fail. *)
Example reports_of_a_batch :
  reports (X := Toy.answering) Toy.sec None
    [Toy.broken; Toy.report; Toy.blank; Toy.annex; Toy.torn]
  = [st_error (lit "Error processing broken.pdf: EOF marker not found");
     st_success (lit "Processed: report.pdf");
     st_error (lit "Error processing blank.pdf: list index out of range");
     st_success (lit "Processed: annex.pdf");
     st_error (lit "Error processing torn.pdf: bad xref")].
Proof. reflexivity. Qed.

(* ================================================================== *)
(** ** Further properties: the Submit handler *)

Section HandlerExtras.

Context {X : Externals}.

#[local] Arguments lit : simpl never.

(** X8.  A submission that goes through, no Copy button being pressed:
    the handler makes one search, builds the client once, sends one
    prompt, shows the response and then the follow-ups (the header, and for
    each follow-up that is not blank its bullet and its Copy button), does
    nothing else, and records exactly one entry, the question with the main
    response. *)
Theorem successful_submission (cfg : settings) (sec : secrets)
    (question custom_question : str) (s : state) (store : VectorStore)
    (docs : list Document) (llm : ChatModel) (text main : str)
    (fq : list str) :
  let q := resolve_question custom_question question in
  let prompt :=
    build_prompt (limit_context (join_chunks docs) (max_context_length cfg)) q in
  vector_store s = Some store ->
  truthy q = true ->
  similarity_search store q 3 = Ok docs ->
  ChatGroq (selected_model cfg) (groq_api_key sec) = Ok llm ->
  invoke llm [Message (lit "user") prompt] = Ok text ->
  extract_follow_ups text = Ok (main, fq) ->
  (forall label key, st_button label key = false) ->
  submit_handler cfg sec question custom_question s
    = (Ok tt,
       State (conversation_history s ++ [Entry q main]) (vector_store s)
         (trace s
            ++ [similarity_search_call q 3;
                ChatGroq_call (selected_model cfg) (groq_api_key sec);
                invoke_call [Message (lit "user") prompt];
                st_markdown (lit "**Response:**" ++ [NL; NL] ++ main)]
            ++ follow_up_page fq)) /\
  forallb page_event (follow_up_page fq) = true /\
  markdown_bodies (follow_up_page fq) =
    match fq with
    | [] => []
    | _ :: _ =>
        lit "**Follow-up Questions:**"
          :: map (fun f => lit "- " ++ f) (shown_follow_ups fq)
    end.
Proof.
  intros q prompt Hs Hq Hd Hc Hi He Hno.
  pose (s3 := log (log s [similarity_search_call q 3])
                [ChatGroq_call (selected_model cfg) (groq_api_key sec);
                 invoke_call [Message (lit "user") prompt];
                 st_markdown (lit "**Response:**" ++ [NL; NL] ++ main)]).
  pose proof (show_follow_ups_unpressed Hno fq s3) as Eu.
  split; [|split].
  - rewrite (submit_handler_answers cfg sec question custom_question s store
               Hs Hq).
    fold q. rewrite (answer_question_found cfg sec store q s docs Hd).
    unfold try_except. fold prompt.
    rewrite (generate_response_answered cfg sec prompt q _ llm text main fq
               Hc Hi He).
    unfold bind. fold s3. rewrite Eu.
    unfold append_history, s3, log.
    cbn [conversation_history vector_store trace].
    rewrite <- !app_assoc. reflexivity.
  - destruct (show_follow_ups_page fq s3) as (r & tl & Ep & Hp).
    rewrite Eu in Ep. apply (f_equal snd) in Ep. cbn [snd] in Ep.
    apply log_inj in Ep. now rewrite Ep.
  - destruct (show_follow_ups_bullets Hno fq s3) as (tl & Eb & Hb).
    rewrite Eu in Eb. apply (f_equal snd) in Eb. cbn [snd] in Eb.
    apply log_inj in Eb. now rewrite Eb.
Qed.

(** X10.  The search is made outside the [try]: when it raises, the
    exception leaves the handler; no chat client is built, nothing is sent,
    no error is shown and the history stays. *)
Theorem search_failure_escapes (cfg : settings) (sec : secrets)
    (question custom_question : str) (s : state) (store : VectorStore)
    (e : exn) :
  let q := resolve_question custom_question question in
  vector_store s = Some store ->
  truthy q = true ->
  similarity_search store q 3 = Raise e ->
  submit_handler cfg sec question custom_question s
    = (Raise e, log s [similarity_search_call q 3]).
Proof.
  intros q Hs Hq Hd.
  rewrite (submit_handler_answers cfg sec question custom_question s store Hs Hq).
  fold q. apply (answer_question_search_fails cfg sec store q s e Hd).
Qed.

(** X11.  For a non-negative maximal context length, the prompt is at
    most that many characters plus the question plus the 364 characters of
    the template. *)
Theorem prompt_length_bounded (relevant_chunks : list Document)
    (max_context_length : Z) (q : str) :
  (0 <= max_context_length)%Z ->
  length
    (build_prompt
       (limit_context (join_chunks relevant_chunks) max_context_length) q)
  <= Z.to_nat max_context_length + length q + 364.
Proof.
  intros Hmax.
  assert (Hc : length (limit_context (join_chunks relevant_chunks)
                         max_context_length)
               <= Z.to_nat max_context_length).
  { unfold limit_context.
    destruct (Z.of_nat (length (join_chunks relevant_chunks))
              >? max_context_length)%Z eqn:E.
    - unfold slice_to. destruct (0 <=? max_context_length)%Z eqn:E0; [|lia].
      rewrite length_firstn. lia.
    - lia. }
  unfold build_prompt. rewrite !length_app.
  change (length (lit "Context:")) with 8.
  change (length (lit "Question: ")) with 10.
  change (length instruction) with 341.
  simpl length. lia.
Qed.

End HandlerExtras.

(* ================================================================== *)
(** ** Further properties: buttons, tiles, history and the whole run *)

(** X12.  Choosing a tile replaces the predefined questions wholesale by
    one of the five fixed lists, none of them empty, whatever the list was
    before; with no tile pressed the list stays. *)
Theorem tiles_replace_wholesale (t : tiles) (predefined : list str) :
  let chosen := press_tiles t predefined in
  if any_tile t
  then In chosen [revenue_questions; expenses_questions;
                  profit_metrics_questions; assets_questions;
                  gaps_questions] /\
       chosen = press_tiles t [] /\
       chosen <> []
  else chosen = predefined.
Proof.
  destruct t as [[|] [|] [|] [|] [|]]; cbv zeta;
    unfold any_tile, press_tiles; cbn [revenue expenses profit_metrics assets
                                       gaps orb];
    try reflexivity;
    (split; [cbn [In]; tauto | split; [reflexivity | discriminate]]).
Qed.

(** X13.  An entry appended to the history is drawn last in the expander,
    numbered one more than the entries before it, and the lines drawn for
    those stay as they were. *)
Theorem new_entry_shown_last (h : list entry) (q a : str) :
  history_view (h ++ [Entry q a])
  = Some (lit "Conversation History",
          view_lines h
            ++ [lit "**Q" ++ of_nat (length h + 1) ++ lit ":** " ++ q;
                lit "**A:** " ++ a]).
Proof.
  assert (E : view_lines h = flat_map history_lines (enumerate h))
    by (destruct h; reflexivity).
  rewrite E. unfold history_view.
  destruct (h ++ [Entry q a]) eqn:D; [now destruct h|].
  rewrite <- D, enumerate_snoc, flat_map_app. reflexivity.
Qed.

Section AppExtras.

Context {X : Externals}.

(** X14.  The keys of the Copy buttons of one submission are pairwise
    distinct, whatever the follow-ups and whichever buttons are pressed. *)
Theorem copy_keys_distinct (follow_up_questions : list str) (s : state) :
  exists r tl,
    show_follow_ups follow_up_questions s = (r, log s tl) /\
    NoDup (button_keys tl).
Proof.
  unfold show_follow_ups.
  destruct follow_up_questions as [|f fs].
  - exists (Ok tt), []. unfold ret. rewrite log_nil. split; [reflexivity|].
    constructor.
  - unfold bind, emit, enumerate.
    destruct (show_each_keys (f :: fs) 0
                (log s [st_markdown (lit "**Follow-up Questions:**")]))
      as (r & tl & E & Hnd & _).
    rewrite E, log_log. eexists _, _. split; [reflexivity|].
    rewrite button_keys_app. exact Hnd.
Qed.

(** X15.  The DeepSeek key is required and never used: when it is empty
    the run stops at the key check with an error and nothing else happens,
    and when it is not the run is the same whatever its value. *)
Theorem deepseek_key_required_but_unused (cfg : settings)
    (groq deepseek1 deepseek2 openai : str) (w : app_widgets)
    (ss : session) :
  truthy deepseek1 = true ->
  truthy deepseek2 = true ->
  app_run cfg (Secrets groq deepseek1 openai) w ss
    = app_run cfg (Secrets groq deepseek2 openai) w ss /\
  app_run cfg (Secrets groq [] openai) w ss
    = Run Stopped ss
        [st_error
           (lit "API keys are missing. Please check your Streamlit Secrets.")]
        None.
Proof.
  intros H1 H2. split.
  - unfold app_run, keys_missing.
    cbn [groq_api_key deepseek_api_key openai_api_key]. rewrite H1, H2.
    reflexivity.
  - unfold app_run, keys_missing.
    cbn [groq_api_key deepseek_api_key openai_api_key truthy negb].
    rewrite orb_true_r. reflexivity.
Qed.

(** X16.  A run without uploaded files has no index, whatever earlier
    runs indexed: Submit only shows the warning that asks for a document,
    for any question, and the history is left as it was. *)
Theorem no_upload_no_answer (cfg : settings) (sec : secrets)
    (w : app_widgets) (ss : session) :
  keys_missing sec = false ->
  app_files w = [] ->
  app_submit w = true ->
  app_run cfg sec w ss
    = Run Completed
        (Session (Some (history_of ss))
           (Some (press_tiles (app_tiles w) (predefined_of ss))))
        [no_document_warning]
        (history_view (history_of ss)).
Proof.
  intros Hk Hf Hs. unfold app_run. rewrite Hk, Hf, Hs.
  unfold process_documents, bind, set_vector_store, ret. cbv beta iota.
  rewrite history_of_init, predefined_of_init.
  rewrite submit_handler_warns by (left; reflexivity).
  reflexivity.
Qed.

(** X17.  In every run the history only grows, by at most one entry, and
    by none when Submit is not pressed; and without Submit nothing is sent
    to the chat model. *)
Theorem history_grows_by_at_most_one (cfg : settings) (sec : secrets)
    (w : app_widgets) (ss : session) :
  exists new,
    history_of (run_session (app_run cfg sec w ss)) = history_of ss ++ new /\
    if app_submit w
    then length new <= 1
    else new = [] /\
         filter is_chat_call (run_trace (app_run cfg sec w ss)) = [].
Proof.
  unfold app_run. destruct (keys_missing sec).
  { exists []. rewrite app_nil_r. split; [reflexivity|].
    destruct (app_submit w); [simpl; lia | split; reflexivity]. }
  destruct (process_documents_run sec (app_files w)
              (State (history_of (init_session ss)) None []))
    as (tl & E & _ & Hnc & _).
  rewrite E. cbn [conversation_history trace app].
  rewrite history_of_init.
  destruct (app_submit w).
  - match goal with
    | |- context [submit_handler ?c ?k ?qq ?cq ?st] =>
        destruct (submit_handler_history c k qq cq st)
          as (r & s' & new & Eh & _ & Hh & Hlen)
    end.
    rewrite Eh. exists new.
    destruct r; cbn [run_session history_of session_history];
      rewrite Hh; split; auto.
  - exists []. rewrite app_nil_r.
    cbn [run_session run_trace history_of session_history
         conversation_history trace].
    split; [reflexivity|]. split; [reflexivity | exact Hnc].
Qed.

(** X18.  When the search raises during a submission, the run ends there
    on the uncaught exception: the history expander is not drawn, even
    when there is a history, nothing was sent to the chat model, and the
    session keeps its history. *)
Theorem uncaught_search_ends_the_run (cfg : settings) (sec : secrets)
    (w : app_widgets) (ss : session) (store : VectorStore) (e : exn) :
  let q := resolve_question (app_custom_question w) (app_question w ss) in
  keys_missing sec = false ->
  app_submit w = true ->
  fold_left (index_after sec) (app_files w) None = Some store ->
  truthy q = true ->
  similarity_search store q 3 = Raise e ->
  run_ending (app_run cfg sec w ss) = Uncaught e /\
  run_history_view (app_run cfg sec w ss) = None /\
  run_session (app_run cfg sec w ss)
    = Session (Some (history_of ss))
        (Some (press_tiles (app_tiles w) (predefined_of ss))) /\
  filter is_chat_call (run_trace (app_run cfg sec w ss)) = [].
Proof.
  intros q Hk Hs Hf Hq He. unfold app_run. rewrite Hk, Hs.
  destruct (process_documents_run sec (app_files w)
              (State (history_of (init_session ss)) None []))
    as (tl & E & _ & Hnc & _).
  rewrite E. cbn [conversation_history trace vector_store app].
  rewrite history_of_init, predefined_of_init.
  match goal with
  | |- context [submit_handler _ _ ?qq _ ?st] =>
      assert (V : vector_store st = Some store) by exact Hf;
      rewrite (submit_handler_answers cfg sec qq
                 (app_custom_question w) st store V Hq);
      rewrite (answer_question_search_fails cfg sec store
                 (resolve_question (app_custom_question w) qq) st e He)
  end.
  cbn [run_ending run_history_view run_session run_trace log
       conversation_history trace vector_store].
  repeat split.
  rewrite filter_app, Hnc. reflexivity.
Qed.

End AppExtras.

(* ================================================================== *)
(** ** The further properties at work in the small worlds *)

Lemma successful_submission_witness :
  submit_handler (X := Toy.answering) Toy.cfg Toy.sec Toy.predefined
    Toy.custom (Toy.indexed Toy.answering [lit "Revenue grew."])
  = (Ok tt,
     State (X := Toy.answering)
       ([] ++ [Entry Toy.custom (lit "Answer text" ++ [NL])])
       (Some [lit "Revenue grew."])
       ([] ++ [similarity_search_call Toy.custom 3;
               ChatGroq_call (lit "llama-3.3-70b-versatile") (lit "gsk");
               invoke_call
                 [Message (lit "user")
                    (build_prompt (lit "Revenue grew.") Toy.custom)];
               st_markdown
                 (lit "**Response:**" ++ [NL; NL] ++ lit "Answer text" ++ [NL])]
           ++ follow_up_page [lit "Q1"; lit "Q2"])) /\
  follow_up_page [lit "Q1"; lit "Q2"]
  = [st_markdown (lit "**Follow-up Questions:**");
     st_markdown (lit "- Q1");
     st_button_shown (lit "Copy") (lit "copy_follow_up_0");
     st_markdown (lit "- Q2");
     st_button_shown (lit "Copy") (lit "copy_follow_up_1")].
Proof.
  split; [|reflexivity].
  apply (successful_submission (X := Toy.answering) Toy.cfg Toy.sec
           Toy.predefined Toy.custom
           (Toy.indexed Toy.answering [lit "Revenue grew."])
           [lit "Revenue grew."] [Doc (lit "Revenue grew.")]
           (lit "llama-3.3-70b-versatile") sample_answer
           (lit "Answer text" ++ [NL]) [lit "Q1"; lit "Q2"]
           eq_refl eq_refl eq_refl eq_refl eq_refl eq_refl
           (fun _ _ => eq_refl)).
Defined.

Lemma search_failure_escapes_witness :
  submit_handler (X := Toy2.offline) Toy.cfg Toy.sec Toy.predefined []
    (Toy.indexed Toy2.offline [lit "Revenue grew."])
  = (Raise Toy2.timeout,
     State (X := Toy2.offline) [] (Some [lit "Revenue grew."])
       [similarity_search_call Toy.predefined 3]).
Proof.
  apply (search_failure_escapes (X := Toy2.offline) Toy.cfg Toy.sec
           Toy.predefined []
           (Toy.indexed Toy2.offline [lit "Revenue grew."])
           [lit "Revenue grew."] Toy2.timeout eq_refl eq_refl eq_refl).
Defined.

Lemma prompt_length_bounded_witness :
  (0 <= 5)%Z /\
  length
    (build_prompt
       (limit_context
          (join_chunks [Doc (lit "ab"); Doc (lit "cd"); Doc (lit "ef")]) 5)
       Toy.custom)
  <= Z.to_nat 5 + length Toy.custom + 364.
Proof.
  split; [lia|].
  apply (prompt_length_bounded
           [Doc (lit "ab"); Doc (lit "cd"); Doc (lit "ef")] 5 Toy.custom).
  lia.
Defined.

Lemma deepseek_key_required_but_unused_witness :
  app_run (X := Toy.answering) Toy.cfg
    (Secrets (lit "gsk") (lit "dsk") (lit "osk"))
    (AppWidgets (X := Toy.answering) [Toy.report] Toy2.no_tiles [] Toy.custom
       true)
    (Session None None)
  = app_run (X := Toy.answering) Toy.cfg
      (Secrets (lit "gsk") (lit "another") (lit "osk"))
      (AppWidgets (X := Toy.answering) [Toy.report] Toy2.no_tiles [] Toy.custom
         true)
      (Session None None) /\
  run_ending
    (app_run (X := Toy.answering) Toy.cfg
       (Secrets (lit "gsk") [] (lit "osk"))
       (AppWidgets (X := Toy.answering) [Toy.report] Toy2.no_tiles []
          Toy.custom true)
       (Session None None))
  = Stopped.
Proof.
  destruct (deepseek_key_required_but_unused (X := Toy.answering) Toy.cfg
              (lit "gsk") (lit "dsk") (lit "another") (lit "osk")
              (AppWidgets (X := Toy.answering) [Toy.report] Toy2.no_tiles []
                 Toy.custom true)
              (Session None None) eq_refl eq_refl) as [E1 E2].
  split; [exact E1|]. rewrite E2. reflexivity.
Defined.

Lemma no_upload_no_answer_witness :
  app_run (X := Toy.answering) Toy.cfg Toy.sec
    (AppWidgets (X := Toy.answering) [] Toy2.no_tiles [] Toy.custom true)
    (Session (Some Toy2.earlier) None)
  = Run Completed (Session (Some Toy2.earlier) (Some []))
      [no_document_warning]
      (Some (lit "Conversation History",
             [lit "**Q1:** What is EBITDA?";
              lit "**A:** Earnings before interest."])).
Proof.
  apply (no_upload_no_answer (X := Toy.answering) Toy.cfg Toy.sec
           (AppWidgets (X := Toy.answering) [] Toy2.no_tiles [] Toy.custom true)
           (Session (Some Toy2.earlier) None) eq_refl eq_refl eq_refl).
Defined.

Lemma uncaught_search_ends_the_run_witness :
  run_ending
    (app_run (X := Toy2.offline) Toy.cfg Toy.sec
       (AppWidgets (X := Toy2.offline) [Toy.report] Toy2.no_tiles []
          Toy.custom true)
       (Session (Some Toy2.earlier) None))
  = Uncaught Toy2.timeout /\
  run_history_view
    (app_run (X := Toy2.offline) Toy.cfg Toy.sec
       (AppWidgets (X := Toy2.offline) [Toy.report] Toy2.no_tiles []
          Toy.custom true)
       (Session (Some Toy2.earlier) None))
  = None.
Proof.
  destruct (uncaught_search_ends_the_run (X := Toy2.offline) Toy.cfg Toy.sec
              (AppWidgets (X := Toy2.offline) [Toy.report] Toy2.no_tiles []
                 Toy.custom true)
              (Session (Some Toy2.earlier) None)
              [lit "Revenue grew."] Toy2.timeout
              eq_refl eq_refl eq_refl eq_refl eq_refl) as (E1 & E2 & _).
  split; [exact E1 | exact E2].
Defined.

Lemma index_exists_iff_some_file_ingested_witness :
  existsb (ingestible (X := Toy.answering) Toy.sec) [Toy.broken; Toy.blank]
    = false /\
  vector_store
    (exec (process_documents (X := Toy.answering) Toy.sec
             [Toy.broken; Toy.blank])
       (Toy.indexed Toy.answering [lit "Revenue grew."]))
  = None.
Proof.
  split; [reflexivity|].
  apply (index_exists_iff_some_file_ingested (X := Toy.answering) Toy.sec
           [Toy.broken; Toy.blank]
           (Toy.indexed Toy.answering [lit "Revenue grew."])).
  reflexivity.
Defined.

(** A whole run: a report is uploaded, the Gaps tile was chosen earlier,
    a custom question is typed and Submit pressed. *)
Example whole_run :
  app_run (X := Toy.answering) Toy.cfg Toy.sec
    (AppWidgets (X := Toy.answering) [Toy.report] Toy2.no_tiles
       (lit "Are there any significant financial risks?") Toy.custom true)
    (Session (Some Toy2.earlier) (Some gaps_questions))
  = Run Completed
      (Session
         (Some (Toy2.earlier ++ [Entry Toy.custom (lit "Answer text" ++ [NL])]))
         (Some gaps_questions))
      [st_subheader (lit "Processing Documents...");
       FAISS_from_texts_call [lit "Revenue grew."];
       st_success (lit "Processed: report.pdf");
       similarity_search_call Toy.custom 3;
       ChatGroq_call (lit "llama-3.3-70b-versatile") (lit "gsk");
       invoke_call
         [Message (lit "user") (build_prompt (lit "Revenue grew.") Toy.custom)];
       st_markdown (lit "**Response:**" ++ [NL; NL] ++ lit "Answer text" ++ [NL]);
       st_markdown (lit "**Follow-up Questions:**");
       st_markdown (lit "- Q1");
       st_button_shown (lit "Copy") (lit "copy_follow_up_0");
       st_markdown (lit "- Q2");
       st_button_shown (lit "Copy") (lit "copy_follow_up_1")]
      (Some (lit "Conversation History",
             [lit "**Q1:** What is EBITDA?";
              lit "**A:** Earnings before interest.";
              lit "**Q2:** What is EBITDA?";
              lit "**A:** Answer text" ++ [NL]])).
Proof. reflexivity. Qed.
